(** * Verification of the multi-account Telegram orchestrator of LocalBackendServer

    Shallow embedding of the account registry
    ([TelegramAccountManager], telegram-account-manager.js), the task
    manager and scheduler ([TelegramTaskManager]), the listener loop
    ([TelegramSession.monitorChannel]) and the orchestrating service
    ([TelegramService]).  JS [Map]s are association lists in insertion
    order; file writes are logged as snapshots. *)

From Stdlib Require Import List String Ascii Bool Arith Lia.
Import ListNotations.
Open Scope string_scope.
Open Scope list_scope.

(** ** JS [Map] as an insertion-ordered association list *)
Module JsMap.
Section M.
Context {V : Type}.
Definition t := list (string * V).

Fixpoint has (m : t) (k : string) : bool :=
  match m with
  | [] => false
  | (k', _) :: m' => String.eqb k k' || has m' k
  end.

Fixpoint get (m : t) (k : string) : option V :=
  match m with
  | [] => None
  | (k', v) :: m' => if String.eqb k k' then Some v else get m' k
  end.

(** [Map.prototype.set]: an existing key keeps its position, a new key
    goes to the end. *)
Fixpoint set (m : t) (k : string) (v : V) : t :=
  match m with
  | [] => [(k, v)]
  | (k', v') :: m' =>
      if String.eqb k k' then (k', v) :: m' else (k', v') :: set m' k v
  end.

Fixpoint delete (m : t) (k : string) : t :=
  match m with
  | [] => []
  | (k', v') :: m' => if String.eqb k k' then delete m' k else (k', v') :: delete m' k
  end.

Definition values (m : t) : list V := map snd m.
Definition keys (m : t) : list string := map fst m.
End M.
Arguments t : clear implicits.
End JsMap.

(** ** Account registry ([TelegramAccountManager]) *)
Module Accounts.

Record account := mkAccount {
  id : string;
  phone : string;
  name : string;
  active : bool;
  sessionFile : string;
  createdAt : string
}.

Record manager := mkManager {
  accounts : JsMap.t account;          (* this.accounts *)
  sessions : list string;              (* keys of this.sessions *)
  activeAccountId : option string;     (* this.activeAccountId (null = None) *)
  accountsFileWrites : list (list account); (* saveAccounts snapshots, newest first *)
  unlinkedSessionFiles : list string   (* session files removed by removeAccount *)
}.

(** [new Error('账号已存在')] ("account already exists") *)
Inductive error := AccountAlreadyExists.

Definition is_digit (c : ascii) : bool :=
  (48 <=? nat_of_ascii c)%nat && (nat_of_ascii c <=? 57)%nat.

(** [makeAccountId]: [phone.replace(/[^0-9]/g, '')] *)
Fixpoint makeAccountId (phone : string) : string :=
  match phone with
  | EmptyString => EmptyString
  | String c rest => if is_digit c then String c (makeAccountId rest) else makeAccountId rest
  end.

(** [saveAccounts]: write [Array.from(this.accounts.values())] *)
Definition saveAccounts (m : manager) : manager :=
  mkManager (accounts m) (sessions m) (activeAccountId m)
    (JsMap.values (accounts m) :: accountsFileWrites m) (unlinkedSessionFiles m).

Definition with_accounts (m : manager) (a : JsMap.t account) (act : option string) : manager :=
  mkManager a (sessions m) act (accountsFileWrites m) (unlinkedSessionFiles m).

Definition set_active (a : account) (b : bool) : account :=
  mkAccount (id a) (phone a) (name a) b (sessionFile a) (createdAt a).

Definition set_name (a : account) (n : string) : account :=
  mkAccount (id a) (phone a) n (active a) (sessionFile a) (createdAt a).

(** [addAccount(phone, name)]; [name] is [None] when undefined, and
    [name || phone] also falls back on the empty string; [now] is
    [new Date().toISOString()]. *)
Definition addAccount (m : manager) (ph : string) (nm : option string) (now : string)
  : (error + account) * manager :=
  let accountId := makeAccountId ph in
  if JsMap.has (accounts m) accountId then (inl AccountAlreadyExists, m)
  else
    let acc := mkAccount accountId ph
                 (match nm with Some n => if String.eqb n "" then ph else n | None => ph end)
                 (match accounts m with [] => true | _ => false end)
                 ("./data/telegram-session-" ++ accountId ++ ".txt")
                 now in
    let accs := JsMap.set (accounts m) accountId acc in
    let act := if active acc then Some accountId else activeAccountId m in
    (inr acc, saveAccounts (with_accounts m accs act)).

(** [removeAccount(accountId)] *)
Definition removeAccount (m : manager) (accountId : string) : bool * manager :=
  match JsMap.get (accounts m) accountId with
  | None => (false, m)
  | Some acc =>
      let m1 := mkManager (accounts m)
                  (filter (fun k => negb (String.eqb k accountId)) (sessions m))
                  (activeAccountId m) (accountsFileWrites m)
                  (sessionFile acc :: unlinkedSessionFiles m) in
      let accs := JsMap.delete (accounts m1) accountId in
      let m2 :=
        match activeAccountId m1 with
        | Some a =>
            if String.eqb a accountId then
              match accs with
              | [] => with_accounts m1 accs None
              | (k, first) :: _ =>
                  with_accounts m1 (JsMap.set accs k (set_active first true)) (Some (id first))
              end
            else with_accounts m1 accs (activeAccountId m1)
        | None => with_accounts m1 accs (activeAccountId m1)
        end in
      (true, saveAccounts m2)
  end.

(** [switchAccount(accountId)] *)
Definition switchAccount (m : manager) (accountId : string) : bool * manager :=
  if negb (JsMap.has (accounts m) accountId) then (false, m)
  else
    let cleared := map (fun p => (fst p, set_active (snd p) false)) (accounts m) in
    let accs := match JsMap.get cleared accountId with
                | Some acc => JsMap.set cleared accountId (set_active acc true)
                | None => cleared
                end in
    (true, saveAccounts (with_accounts m accs (Some accountId))).

(** [updateAccount(accountId, updates)]; [upd_name] is [updates.name]
    ([None] when undefined). *)
Definition updateAccount (m : manager) (accountId : string) (upd_name : option string)
  : option account * manager :=
  match JsMap.get (accounts m) accountId with
  | None => (None, m)
  | Some acc =>
      let acc' := match upd_name with Some n => set_name acc n | None => acc end in
      (Some acc', saveAccounts (with_accounts m (JsMap.set (accounts m) accountId acc')
                                              (activeAccountId m)))
  end.

Definition empty_manager : manager := mkManager [] [] None [] [].

End Accounts.

(** ** Definitions used by the statements about the registry *)
Module AccountsInv.
Import Accounts.

(** Keys of the active accounts, in map order. *)
Definition active_ids (m : manager) : list string :=
  map fst (filter (fun p => active (snd p)) (accounts m)).

(** Well-formed map: every entry stored under its own [id], no key twice. *)
Definition keys_ok (m : manager) : Prop :=
  Forall (fun p => id (snd p) = fst p) (accounts m) /\ NoDup (JsMap.keys (accounts m)).

(** The registry invariant: either empty with no active id, or exactly one
    active account, the one [activeAccountId] names. *)
Definition inv (m : manager) : Prop :=
  keys_ok m /\
  ((accounts m = [] /\ activeAccountId m = None) \/
   (exists a, active_ids m = [a] /\ activeAccountId m = Some a)).

Inductive op :=
| OpAdd (ph : string) (nm : option string) (now : string)
| OpRemove (k : string)
| OpSwitch (k : string).

Definition step (m : manager) (o : op) : manager :=
  match o with
  | OpAdd ph nm now => snd (addAccount m ph nm now)
  | OpRemove k => snd (removeAccount m k)
  | OpSwitch k => snd (switchAccount m k)
  end.

Definition run (m : manager) (ops : list op) : manager := fold_left step ops m.
End AccountsInv.

(** ** Task manager and scheduler ([TelegramTaskManager]) *)
Module Tasks.

Inductive task_type := TSend | TListen.

(** One record for both task shapes; a listen task leaves the send fields
    empty and vice versa. *)
Record task := mkTask {
  tid : string;
  ttype : task_type;
  cron : string;
  to : string;
  message : string;
  channel : string;
  accountId : option string;
  enabled : bool;
  runOnce : bool
}.

Definition disable (t : task) : task :=
  mkTask (tid t) (ttype t) (cron t) (to t) (message t) (channel t) (accountId t) false (runOnce t).

(** Cron jobs are opaque handles. *)
Definition job := nat.

Record manager := mkManager {
  tasks : list task;                      (* this.tasks *)
  scheduled : JsMap.t job;                (* this.scheduled: taskId -> cron job *)
  scheduledExpr : list (job * string);    (* the expression each job was scheduled with *)
  stoppedJobs : list job;                 (* jobs on which job.stop() was called *)
  nextJob : job;                          (* handle of the next cron.schedule result *)
  listenedMessageIds : JsMap.t (list nat);(* listenTaskId -> Set<messageId> *)
  tasksFileWrites : list (list task);     (* saveTasks snapshots, newest first *)
  notifications : list string             (* titles passed to notifyCallback *)
}.

(** *** Cron normalisation (JS [trim] and [split(/\s+/)] on ASCII) *)
Definition is_ws (c : ascii) : bool :=
  let n := nat_of_ascii c in (n =? 32)%nat || ((9 <=? n)%nat && (n <=? 13)%nat).

Fixpoint trim_left (s : list ascii) : list ascii :=
  match s with
  | c :: t => if is_ws c then trim_left t else s
  | [] => []
  end.

Definition trim (s : string) : string :=
  string_of_list_ascii (rev (trim_left (rev (trim_left (list_ascii_of_string s))))).

(** [s.split(/\s+/)]: every maximal run of white space separates two
    fields, so leading or trailing white space yields an empty field. *)
Fixpoint split_go (s : list ascii) (cur : list ascii) (in_ws : bool) : list (list ascii) :=
  match s with
  | [] => [rev cur]
  | c :: t =>
      if is_ws c then
        if in_ws then split_go t cur true else rev cur :: split_go t [] true
      else split_go t (c :: cur) false
  end.

Definition split_ws (s : string) : list string :=
  map string_of_list_ascii (split_go (list_ascii_of_string s) [] false).

(** The expression [scheduleTask] hands to [cron.validate] and
    [cron.schedule]. *)
Definition normalizeCron (c : string) : string :=
  let cronExpr := trim c in
  let parts := split_ws cronExpr in
  if (List.length parts =? 5)%nat then "0 " ++ cronExpr else cronExpr.

Section Scheduler.
(** [cron] is the optional [node-cron] module: [cron_loaded] says whether
    [require('node-cron')] succeeded, [validate] is [cron.validate]. *)
Variable cron_loaded : bool.
Variable validate : string -> bool.

Definition saveTasks (tm : manager) : manager :=
  mkManager (tasks tm) (scheduled tm) (scheduledExpr tm) (stoppedJobs tm) (nextJob tm)
    (listenedMessageIds tm) (tasks tm :: tasksFileWrites tm) (notifications tm).

Definition set_scheduled (tm : manager) (s : JsMap.t job) (stopped : list job) : manager :=
  mkManager (tasks tm) s (scheduledExpr tm) stopped (nextJob tm)
    (listenedMessageIds tm) (tasksFileWrites tm) (notifications tm).

(** [this.scheduled.get(id).stop(); this.scheduled.delete(id)] *)
Definition unschedule (tm : manager) (id : string) : manager :=
  match JsMap.get (scheduled tm) id with
  | Some j => set_scheduled tm (JsMap.delete (scheduled tm) id) (j :: stoppedJobs tm)
  | None => tm
  end.

(** [scheduleTask(task, executeCallback)]; the job created by
    [cron.schedule] gets the handle [nextJob]. *)
Definition scheduleTask (tm : manager) (t : task) : manager :=
  if negb (enabled t) then unschedule tm (tid t)
  else match ttype t with
  | TListen => tm
  | TSend =>
      if negb cron_loaded then tm
      else
        let cronExpr := normalizeCron (cron t) in
        if negb (validate cronExpr) then tm
        else
          let j := nextJob tm in
          mkManager (tasks tm) (JsMap.set (scheduled tm) (tid t) j)
            ((j, cronExpr) :: scheduledExpr tm) (stoppedJobs tm) (S j)
            (listenedMessageIds tm) (tasksFileWrites tm) (notifications tm)
  end.

(** [rescheduleAll(executeCallback)]: stop and clear every job, then
    schedule every task again (the callback is always given here). *)
Definition rescheduleAll (tm : manager) : manager :=
  let tm1 := set_scheduled tm [] (rev (JsMap.values (scheduled tm)) ++ stoppedJobs tm) in
  fold_left scheduleTask (tasks tm1) tm1.
End Scheduler.

(** Result of [await executeCallback(task)]. *)
Inductive exec_result := ExecOk | ExecErr.

Definition notify (tm : manager) (title : string) : manager :=
  mkManager (tasks tm) (scheduled tm) (scheduledExpr tm) (stoppedJobs tm) (nextJob tm)
    (listenedMessageIds tm) (tasksFileWrites tm) (title :: notifications tm).

Fixpoint findIndex (l : list task) (id : string) : option nat :=
  match l with
  | [] => None
  | t :: l' => if String.eqb (tid t) id then Some 0 else option_map S (findIndex l' id)
  end.

(** [arr[i] = x] for an index inside the array. *)
Fixpoint replace_at (l : list task) (i : nat) (x : task) : list task :=
  match l, i with
  | [], _ => []
  | _ :: l', 0 => x :: l'
  | y :: l', S i' => y :: replace_at l' i' x
  end.

Definition set_tasks (tm : manager) (l : list task) : manager :=
  mkManager l (scheduled tm) (scheduledExpr tm) (stoppedJobs tm) (nextJob tm)
    (listenedMessageIds tm) (tasksFileWrites tm) (notifications tm).

(** Body of the cron job [j] created for [task] by [scheduleTask], with
    the outcome of [executeCallback(task)]; [notifyCallback] is set. *)
Definition fireJob (tm : manager) (task : task) (j : job) (r : exec_result) : manager :=
  let tm1 := match r with
             | ExecOk => notify tm "Telegram 任务发送成功"
             | ExecErr => notify tm "Telegram 任务发送失败"
             end in
  (* finally *)
  if runOnce task then
    let tm2 := set_scheduled tm1 (JsMap.delete (scheduled tm1) (tid task)) (j :: stoppedJobs tm1) in
    match findIndex (tasks tm2) (tid task) with
    | Some idx =>
        match nth_error (tasks tm2) idx with
        | Some cur => saveTasks (set_tasks tm2 (replace_at (tasks tm2) idx (disable cur)))
        | None => tm2
        end
    | None => tm2
    end
  else tm1.

(** [markMessageAsProcessed(listenTaskId, messageId)] *)
Definition markMessageAsProcessed (tm : manager) (listenTaskId : string) (messageId : nat)
  : bool * manager :=
  let ids := match JsMap.get (listenedMessageIds tm) listenTaskId with
             | Some s => s
             | None => []
             end in
  let isNew := negb (existsb (Nat.eqb messageId) ids) in
  let ids' := if isNew then ids ++ [messageId] else ids in
  (isNew,
   mkManager (tasks tm) (scheduled tm) (scheduledExpr tm) (stoppedJobs tm) (nextJob tm)
     (JsMap.set (listenedMessageIds tm) listenTaskId ids') (tasksFileWrites tm)
     (notifications tm)).

(** [getTask(taskId)] *)
Definition getTask (tm : manager) (taskId : string) : option task :=
  find (fun t => String.eqb (tid t) taskId) (tasks tm).

(** [deleteTask(taskId)] *)
Definition deleteTask (tm : manager) (taskId : string) : bool * manager :=
  match findIndex (tasks tm) taskId with
  | None => (false, tm)
  | Some idx =>
      let tm1 := saveTasks (set_tasks tm (firstn idx (tasks tm) ++ skipn (S idx) (tasks tm))) in
      let tm2 := unschedule tm1 taskId in
      let tm3 := match nth_error (tasks tm) idx with
                 | Some t => match ttype t with
                             | TListen => mkManager (tasks tm2) (scheduled tm2) (scheduledExpr tm2)
                                            (stoppedJobs tm2) (nextJob tm2)
                                            (JsMap.delete (listenedMessageIds tm2) taskId)
                                            (tasksFileWrites tm2) (notifications tm2)
                             | TSend => tm2
                             end
                 | None => tm2
                 end in
      (true, tm3)
  end.

End Tasks.

(** ** Message callback of a listen task ([TelegramService.startListenTask]) *)
Module ListenCallback.
Import Tasks.

(** The dedup set of [listenTaskId] ([new Set()] when absent). *)
Definition processedIds (tm : manager) (listenTaskId : string) : list nat :=
  match JsMap.get (listenedMessageIds tm) listenTaskId with Some s => s | None => [] end.

(** The [async (msg) => ...] callback on a message with id [msgId]:
    duplicates return early; a new message is forwarded to
    [notifyCallback] (when set), recorded here by its message id. *)
Definition onMessage (notifyConfigured : bool) (taskId : string)
    (st : manager * list nat) (msgId : nat) : manager * list nat :=
  let '(isNew, tm') := markMessageAsProcessed (fst st) taskId msgId in
  if negb isNew then (tm', snd st)
  else (tm', if notifyConfigured then snd st ++ [msgId] else snd st).

(** Batches of messages handed to the callback, in order. *)
Definition deliverBatches (notifyConfigured : bool) (taskId : string)
    (st : manager * list nat) (batches : list (list nat)) : manager * list nat :=
  fold_left (fun s b => fold_left (onMessage notifyConfigured taskId) b s) batches st.
End ListenCallback.

(** ** Poll loop of [TelegramSession.monitorChannel] (file-service.js) *)
Module Monitor.

(** Messages are represented by their ids; a page is what
    [iterMessages(entity, { limit: 30 })] yields, newest first, and a
    failed fetch is [None]. *)
Definition page := option (list nat).

(** Initial [lastMessageId]: [latestMessages[0].id] when
    [getMessages(entity, { limit: 1 })] succeeded with a truthy id, else
    [0] (also when that call threw, [None]). *)
Definition baseline (latest : page) : nat :=
  match latest with
  | Some (i :: _) => if (i =? 0)%nat then 0 else i
  | _ => 0
  end.

(** [for await (const msg of ...) { if (!msg.id || msg.id <= lastMessageId) break; messages.push(msg) }] *)
Fixpoint collect (msgs : list nat) (lastMessageId : nat) : list nat :=
  match msgs with
  | [] => []
  | i :: rest => if (i =? 0)%nat || (i <=? lastMessageId)%nat then [] else i :: collect rest lastMessageId
  end.

(** [messages.reverse(); for (const msg of messages) if (msg.id > lastMessageId) { lastMessageId = msg.id; onMessage(msg) }] *)
Definition process (lastMessageId : nat) (messages : list nat) : nat * list nat :=
  fold_left (fun st i => if (fst st <? i)%nat then (i, snd st ++ [i]) else st)
    (rev messages) (lastMessageId, []).

(** One cycle of the [while] body: the new [lastMessageId] and the ids
    handed to [onMessage], in call order.  A fetch error is caught and
    the cycle delivers nothing. *)
Definition cycle (lastMessageId : nat) (p : page) : nat * list nat :=
  match p with
  | None => (lastMessageId, [])
  | Some msgs => process lastMessageId (collect (firstn 30 msgs) lastMessageId)
  end.

(** The loop after the entity has been resolved (once) and the baseline
    taken: each element of [cycles] is the value [stopCondition()] returns
    at the top of that cycle and the page fetched in it.  Returns the final
    [lastMessageId] and all delivered ids. *)
Fixpoint loop (lastMessageId : nat) (cycles : list (bool * page)) : nat * list nat :=
  match cycles with
  | [] => (lastMessageId, [])
  | (stop, p) :: rest =>
      if stop then (lastMessageId, [])
      else let '(l1, d1) := cycle lastMessageId p in
           let '(l2, d2) := loop l1 rest in (l2, d1 ++ d2)
  end.

(** [monitorChannel(channelId, onMessage, stopCondition)] in real mode,
    once [getEntity] succeeded. *)
Definition monitorChannel (latest : page) (cycles : list (bool * page)) : list nat :=
  snd (loop (baseline latest) cycles).
End Monitor.

(** Statement vocabulary for the poll loop. *)
Module MonitorSpec.
(** [incr_from b l]: every element of [l] exceeds the one before it,
    the first one exceeds [b]. *)
Fixpoint incr_from (b : nat) (l : list nat) : bool :=
  match l with
  | [] => true
  | x :: t => (b <? x)%nat && incr_from x t
  end.
End MonitorSpec.

(** ** The orchestrating service ([TelegramService], unnamed/part_005) *)
Module Service.

(** Entry of [this.activeListeners]: the [stop] closure flips the shared
    boolean [shouldStop] stored at [stopFlag]; [session] is the account
    whose session runs the loop. *)
Record listener := mkListener { stopFlag : nat; session : string }.

(** A running [monitorChannel] loop started by [startListenTask]. *)
Record loopState := mkLoop {
  lp_task : string;
  lp_flag : nat;       (* the [shouldStop] it polls through [stopCondition] *)
  lp_session : string;
  lp_last : nat;       (* its [lastMessageId] *)
  lp_done : bool       (* the [while] loop has exited *)
}.

Record service := mkService {
  accountManager : Accounts.manager;
  taskManager : Tasks.manager;
  activeListeners : JsMap.t listener;
  flags : list bool;                           (* the captured [shouldStop] variables *)
  loops : list loopState;
  listenNotifications : list (nat * nat);      (* (loop's flag, message id) sent to notifyCallback *)
  sendAttempts : list (string * string * string) (* (account, to, message) given to sendMessage *)
}.

(** JS truthiness of an optional string ([null], [undefined] and [""] are falsy). *)
Definition truthy (o : option string) : option string :=
  match o with Some s => if String.eqb s "" then None else Some s | None => None end.

(** [a || b] on optional strings. *)
Definition js_or (a b : option string) : option string :=
  match truthy a with Some s => Some s | None => b end.

(** [accountManager.getSession(accountId)], identified by its account. *)
Definition getSession (am : Accounts.manager) (accountId : option string) : option string :=
  match truthy (js_or accountId (Accounts.activeAccountId am)) with
  | Some k => if JsMap.has (Accounts.accounts am) k then Some k else None
  | None => None
  end.

Fixpoint set_true (fl : list bool) (i : nat) : list bool :=
  match fl, i with
  | [], _ => []
  | _ :: t, 0 => true :: t
  | b :: t, S i' => b :: set_true t i'
  end.

Definition with_listeners (s : service) (al : JsMap.t listener) (fl : list bool) : service :=
  mkService (accountManager s) (taskManager s) al fl (loops s) (listenNotifications s)
    (sendAttempts s).

(** [stopListenTask(taskId)] *)
Definition stopListenTask (s : service) (taskId : string) : service :=
  match JsMap.get (activeListeners s) taskId with
  | Some l => with_listeners s (JsMap.delete (activeListeners s) taskId)
                (set_true (flags s) (stopFlag l))
  | None => s
  end.

(** [startListenTask(task)]; [latest] is what the loop's initial
    [getMessages(entity, { limit: 1 })] returns. *)
Definition startListenTask (s : service) (task : Tasks.task) (latest : Monitor.page) : service :=
  match Tasks.ttype task with
  | Tasks.TSend => s
  | Tasks.TListen =>
      let s1 := stopListenTask s (Tasks.tid task) in
      let accountId := js_or (Tasks.accountId task)
                         (Accounts.activeAccountId (accountManager s1)) in
      match getSession (accountManager s1) accountId with
      | None => s1
      | Some acc =>
          let f := List.length (flags s1) in
          mkService (accountManager s1) (taskManager s1)
            (JsMap.set (activeListeners s1) (Tasks.tid task) (mkListener f acc))
            (flags s1 ++ [false])
            (loops s1 ++ [mkLoop (Tasks.tid task) f acc (Monitor.baseline latest) false])
            (listenNotifications s1) (sendAttempts s1)
      end
  end.

(** [deleteTask(taskId)] *)
Definition deleteTask (s : service) (taskId : string) : bool * service :=
  let s1 := match Tasks.getTask (taskManager s) taskId with
            | Some t => match Tasks.ttype t with
                        | Tasks.TListen => stopListenTask s taskId
                        | Tasks.TSend => s
                        end
            | None => s
            end in
  let '(ok, tm') := Tasks.deleteTask (taskManager s1) taskId in
  (ok, mkService (accountManager s1) tm' (activeListeners s1) (flags s1) (loops s1)
         (listenNotifications s1) (sendAttempts s1)).

Fixpoint replace_loop (ls : list loopState) (i : nat) (x : loopState) : list loopState :=
  match ls, i with
  | [], _ => []
  | _ :: t, 0 => x :: t
  | y :: t, S i' => y :: replace_loop t i' x
  end.

(** One cycle of the [i]-th loop, which fetches page [p]: the
    [while (!stopCondition())] test, then [Monitor.cycle], then the
    message callback (dedup, notify) on each delivered id. *)
Definition cycleLoop (s : service) (i : nat) (p : Monitor.page) : service :=
  match nth_error (loops s) i with
  | None => s
  | Some lp =>
      if lp_done lp then s
      else if nth (lp_flag lp) (flags s) false then
        mkService (accountManager s) (taskManager s) (activeListeners s) (flags s)
          (replace_loop (loops s) i
             (mkLoop (lp_task lp) (lp_flag lp) (lp_session lp) (lp_last lp) true))
          (listenNotifications s) (sendAttempts s)
      else
        let '(last', delivered) := Monitor.cycle (lp_last lp) p in
        let '(tm', ns) := fold_left (ListenCallback.onMessage true (lp_task lp)) delivered
                            (taskManager s, []) in
        mkService (accountManager s) tm' (activeListeners s) (flags s)
          (replace_loop (loops s) i
             (mkLoop (lp_task lp) (lp_flag lp) (lp_session lp) last' false))
          (listenNotifications s ++ map (fun m => (lp_flag lp, m)) ns) (sendAttempts s)
  end.

Section WithEnv.
Variable cron_loaded : bool.
Variable validate : string -> bool.
(** [session.getHealth().authorized] of each account's session. *)
Variable authorized : string -> bool.
(** Outcome of [sendMessage] and [waitForFirstReply] for each account:
    [None] when they resolve, [Some e] when they throw [e.message]. *)
Variable sendOutcome : string -> option string.

(** [rescheduleAllTasks()]: passes a send callback and a listen
    callback, but [TelegramTaskManager.rescheduleAll(executeCallback)]
    takes only the first. *)
Definition rescheduleAllTasks (s : service) : service :=
  mkService (accountManager s) (Tasks.rescheduleAll cron_loaded validate (taskManager s))
    (activeListeners s) (flags s) (loops s) (listenNotifications s) (sendAttempts s).

(** [switchAccount(accountId)] *)
Definition switchAccount (s : service) (accountId : string) : bool * service :=
  let '(ok, am') := Accounts.switchAccount (accountManager s) accountId in
  if ok then
    (true, rescheduleAllTasks
             (mkService am' (taskManager s) (activeListeners s) (flags s) (loops s)
                (listenNotifications s) (sendAttempts s)))
  else (false, s).

Definition str_of (o : option string) : string :=
  match o with Some x => x | None => "null" end.

(** [runTaskNow(taskId, accountId)]: the result [{ success, message }];
    the notifications it sends are not modelled. *)
Definition runTaskNow (s : service) (taskId : string) (accountId : option string)
  : (bool * string) * service :=
  match Tasks.getTask (taskManager s) taskId with
  | None => ((false, "任务不存在"), s)
  | Some task =>
      let targetAccountId :=
        js_or accountId (js_or (Tasks.accountId task)
                               (Accounts.activeAccountId (accountManager s))) in
      match getSession (accountManager s) targetAccountId with
      | None => ((false, ("账号 " ++ str_of targetAccountId ++ " 的会话不存在")%string), s)
      | Some acc =>
          if negb (authorized acc) then ((false, "账号未授权，无法发送消息"), s)
          else
            (* getMe() never throws: it catches and returns null *)
            let s1 := mkService (accountManager s) (taskManager s) (activeListeners s)
                        (flags s) (loops s) (listenNotifications s)
                        ((acc, Tasks.to task, Tasks.message task) :: sendAttempts s) in
            match sendOutcome acc with
            | None => ((true, ("消息已发送至 " ++ Tasks.to task)%string), s1)
            | Some e => ((false, e), s1)
            end
      end
  end.

(** Operations of the service, for statements about what happens after
    a given call. *)
Inductive op :=
| OpStart (t : Tasks.task) (latest : Monitor.page)
| OpStop (taskId : string)
| OpDelete (taskId : string)
| OpSwitch (accountId : string)
| OpCycle (i : nat) (p : Monitor.page)
| OpRunNow (taskId : string) (accountId : option string).

Definition step (s : service) (o : op) : service :=
  match o with
  | OpStart t latest => startListenTask s t latest
  | OpStop id => stopListenTask s id
  | OpDelete id => snd (deleteTask s id)
  | OpSwitch id => snd (switchAccount s id)
  | OpCycle i p => cycleLoop s i p
  | OpRunNow id a => snd (runTaskNow s id a)
  end.

Definition run (s : service) (ops : list op) : service := fold_left step ops s.
End WithEnv.
(** Notifications sent by the loop(s) polling flag [f]. *)
Definition tagged (f : nat) (ns : list (nat * nat)) : list (nat * nat) :=
  filter (fun q => Nat.eqb (fst q) f) ns.

(** Flag [f] is allocated and set in [s]. *)
Definition flag_set (f : nat) (s : service) : Prop :=
  (f < List.length (flags s))%nat /\ nth f (flags s) false = true.

End Service.

(** ** A concrete deployment: two accounts, an unscoped listen task *)
Module Scenario.
Import Service.

(** Accounts ["1555"] (added first, so active) and ["1666"]. *)
Definition am0 : Accounts.manager :=
  snd (Accounts.addAccount (snd (Accounts.addAccount Accounts.empty_manager "+1555" None "t0"))
         "+1666" None "t1").

(** A listen task without [accountId]. *)
Definition listenL : Tasks.task :=
  Tasks.mkTask "L" Tasks.TListen "" "" "" "@chan" None true false.

(** A disabled send task without [accountId]. *)
Definition sendS : Tasks.task :=
  Tasks.mkTask "S" Tasks.TSend "0 9 * * *" "@bot" "/ping" "" None false false.

Definition tm0 : Tasks.manager := Tasks.mkManager [listenL; sendS] [] [] [] 0 [] [] [].

(** The service after [startListenTask(listenL)]; the newest message of
    the channel is [100]. *)
Definition s1 : service :=
  startListenTask (mkService am0 tm0 [] [] [] [] []) listenL (Some [100]).
End Scenario.

(** ** More of [TelegramAccountManager]: loading, the session cache, queries *)
Module AccountsMore.
Import Accounts.

(** The [list.forEach] of [loadAccounts] over a parsed array:
    [this.accounts.set(acc.id, acc); if (acc.active) this.activeAccountId = acc.id]. *)
Definition loadList (m : manager) (l : list account) : manager :=
  fold_left (fun m acc =>
               with_accounts m (JsMap.set (accounts m) (id acc) acc)
                 (if active acc then Some (id acc) else activeAccountId m)) l m.

(** What one attempt of [loadAccounts] finds: no file ([existsSync] is
    false), a file on which [readFileSync] or [JSON.parse] throws, or the
    parsed JSON: an array of accounts ([Some l]) or another value ([None]). *)
Inductive file_outcome := FMissing | FUnreadable | FParsed (l : option (list account)).

Definition maxAttempts : nat := 5.

(** The [for (let attempt = 1; attempt <= maxAttempts; attempt++)] loop;
    [syncSleep] and the log lines are not modelled.  A missing file on the
    last attempt is created with ['[]'], logged here as an empty snapshot. *)
Fixpoint load_go (fuel attempt : nat) (outcome : nat -> file_outcome) (m : manager) : manager :=
  match fuel with
  | 0 => m
  | S fuel' =>
      match outcome attempt with
      | FMissing =>
          if (attempt <? maxAttempts)%nat then load_go fuel' (S attempt) outcome m
          else mkManager (accounts m) (sessions m) (activeAccountId m)
                 ([] :: accountsFileWrites m) (unlinkedSessionFiles m)
      | FUnreadable =>
          if (attempt <? maxAttempts)%nat then load_go fuel' (S attempt) outcome m else m
      | FParsed (Some l) => loadList m l
      | FParsed None => m
      end
  end.

(** [loadAccounts()]; [outcome n] is what attempt [n] finds. *)
Definition loadAccounts (m : manager) (outcome : nat -> file_outcome) : manager :=
  load_go maxAttempts 1 outcome m.

(** [getSession(accountId)] with its cache [this.sessions]; a session is
    identified by the account it was created for. *)
Definition getSession (m : manager) (accountId : option string) : option string * manager :=
  let accountId := match accountId with
                   | Some a => if String.eqb a "" then activeAccountId m else Some a
                   | None => activeAccountId m
                   end in
  match accountId with
  | None => (None, m)
  | Some k =>
      if String.eqb k "" then (None, m)
      else if negb (JsMap.has (accounts m) k) then (None, m)
      else if existsb (String.eqb k) (sessions m) then (Some k, m)
      else (Some k, mkManager (accounts m) (sessions m ++ [k]) (activeAccountId m)
                      (accountsFileWrites m) (unlinkedSessionFiles m))
  end.

(** [getAllAccounts()] *)
Definition getAllAccounts (m : manager) : list account := JsMap.values (accounts m).

(** [getActiveAccount()]; [undefined] and [null] are both [None]. *)
Definition getActiveAccount (m : manager) : option account :=
  match activeAccountId m with
  | Some a => if String.eqb a "" then None else JsMap.get (accounts m) a
  | None => None
  end.

(** [getAccount(accountId)] *)
Definition getAccount (m : manager) (accountId : string) : option account :=
  JsMap.get (accounts m) accountId.

Record health := mkHealth {
  mode : string;
  connected : bool;
  authorized : bool;
  error : option string
}.

(** Outcome of [Promise.race([session.getHealth(), timeout])] for a session. *)
Inductive probe := PHealth (h : health) | PTimeout | PThrow (msg : string).

Definition timeoutHealth : health := mkHealth "timeout" false false (Some "health timeout").

(** [getAllAccountsHealth()], the accounts visited in map order; [probeOf k]
    is the race outcome for the session of account [k]. *)
Definition getAllAccountsHealth (probeOf : string -> probe) (m : manager)
  : list (account * health) * manager :=
  fold_left (fun st account =>
               let '(result, m) := st in
               let '(s, m') := getSession m (Some (id account)) in
               match s with
               | Some k =>
                   match probeOf k with
                   | PHealth h => (result ++ [(account, h)], m')
                   | PTimeout => (result ++ [(account, timeoutHealth)], m')
                   | PThrow e => (result ++ [(account, mkHealth "error" false false (Some e))], m')
                   end
               | None => (result ++ [(account, mkHealth "unknown" false false None)], m')
               end)
    (JsMap.values (accounts m)) ([], m).

(** The health entry [getAllAccountsHealth] reports for a race outcome. *)
Definition probeHealth (p : probe) : health :=
  match p with
  | PHealth h => h
  | PTimeout => timeoutHealth
  | PThrow e => mkHealth "error" false false (Some e)
  end.

(** Calls on the registry, including the ones that fill the session cache. *)
Inductive op :=
| OpReg (o : AccountsInv.op)
| OpGetSession (accountId : option string)
| OpUpdate (accountId : string) (upd_name : option string)
| OpHealth (probeOf : string -> probe).

Definition step (m : manager) (o : op) : manager :=
  match o with
  | OpReg o => AccountsInv.step m o
  | OpGetSession a => snd (getSession m a)
  | OpUpdate k n => snd (updateAccount m k n)
  | OpHealth p => snd (getAllAccountsHealth p m)
  end.

Definition run (m : manager) (ops : list op) : manager := fold_left step ops m.

(** The cache holds each session once, and only for registered accounts. *)
Definition sessions_ok (m : manager) : Prop :=
  NoDup (sessions m) /\ forall k, In k (sessions m) -> JsMap.has (accounts m) k = true.
End AccountsMore.

(** ** Mock mode of [TelegramSession] (file-service.js): login states *)
Module SessionMock.

Inductive status := CodeSent | PasswordRequired | Authorized.

(** Entry of [this.mockSessions]. *)
Record mockSession := mkMock { mphone : string; mcode : string; mstatus : status; mcreatedAt : nat }.

Definition store := JsMap.t mockSession.

(** [sendCode(phone)] when [!this.enabledReal]: [stateId] is
    [makeStateId()], [code] is [randomDigits(5)], [now] is [Date.now()];
    returns the [stateId] and the [debugCode]. *)
Definition sendCode (st : store) (phone stateId code : string) (now : nat)
  : (string * string) * store :=
  ((stateId, code), JsMap.set st stateId (mkMock phone code CodeSent now)).

Inductive verify_result := VErr (msg : string) | VOk (phone : string).

Definition set_status (s : mockSession) (x : status) : mockSession :=
  mkMock (mphone s) (mcode s) x (mcreatedAt s).

(** [verify(stateId, code, password)] when [!this.enabledReal]; a thrown
    error is [VErr] with its message, the object [s] is updated in place. *)
Definition verify (st : store) (stateId : string) (code password : option string)
  : verify_result * store :=
  match JsMap.get st stateId with
  | None => (VErr "无效的 stateId", st)
  | Some s =>
      match mstatus s with
      | CodeSent =>
          match Service.truthy code with
          | None => (VErr "验证码错误", st)
          | Some c =>
              if negb (String.eqb (Tasks.trim c) (mcode s)) then (VErr "验证码错误", st)
              else (VOk (mphone s), JsMap.set st stateId (set_status s Authorized))
          end
      | PasswordRequired =>
          match Service.truthy password with
          | None => (VErr "需要提供二步密码", st)
          | Some _ => (VOk (mphone s), JsMap.set st stateId (set_status s Authorized))
          end
      | Authorized => (VErr "状态不允许验证", st)
      end
  end.

(** [logout(stateId)] when [!this.enabledReal]. *)
Definition logout (st : store) (stateId : option string) : store :=
  match Service.truthy stateId with
  | Some k => if JsMap.has st k then JsMap.delete st k else st
  | None => st
  end.

(** A message of [iterMessages]: ids are numbers, [0] standing for a
    falsy one ([senderId] missing, [selfId] of a null [me]). *)
Record msg := mkMsg { mid : nat; out : bool; senderId : nat }.

(** [pickReply()] of [waitForFirstReply] over the fetched page. *)
Fixpoint pickReply (sinceId selfId : nat) (msgs : list msg) : option msg :=
  match msgs with
  | [] => None
  | m :: rest =>
      if negb (sinceId =? 0)%nat && negb (mid m =? 0)%nat && (mid m <=? sinceId)%nat then None
      else if out m then pickReply sinceId selfId rest
      else if negb (selfId =? 0)%nat && negb (senderId m =? 0)%nat && (senderId m =? selfId)%nat
      then pickReply sinceId selfId rest
      else Some m
  end.

(** [waitForFirstReply(to, sinceId, selfId)]: [polls] are the pages
    [iterMessages(to, { limit: 20 })] returns on the polls made before the
    deadline. *)
Fixpoint waitForFirstReply (enabledReal : bool) (sinceId selfId : nat)
    (polls : list (list msg)) : option msg :=
  if negb enabledReal then None
  else match polls with
       | [] => None
       | p :: ps =>
           match pickReply sinceId selfId (firstn 20 p) with
           | Some r => Some r
           | None => waitForFirstReply enabledReal sinceId selfId ps
           end
       end.
End SessionMock.

(** ** More of [TelegramTaskManager]: creation, update, dedup sets *)
Module TasksMore.
Import Tasks.

(** [getTasks(accountId)] *)
Definition getTasks (tm : manager) (acc : option string) : list task :=
  match Service.truthy acc with
  | Some a => filter (fun t => match accountId t with
                              | Some b => String.eqb b a
                              | None => false
                              end) (tasks tm)
  | None => tasks tm
  end.

(** [String.prototype.toLowerCase] on ASCII letters. *)
Definition lower_ascii (c : ascii) : ascii :=
  let n := nat_of_ascii c in
  if (65 <=? n)%nat && (n <=? 90)%nat then ascii_of_nat (n + 32) else c.

Fixpoint toLowerCase (s : string) : string :=
  match s with
  | EmptyString => EmptyString
  | String c r => String (lower_ascii c) (toLowerCase r)
  end.

(** [String(x || d)] for an optional string [x]. *)
Definition str_or (x : option string) (d : string) : string :=
  match Service.truthy x with Some s => s | None => d end.

(** The fields of [taskData] ([None]: undefined). *)
Record taskData := mkTaskData {
  d_type : option string;
  d_channel : option string;
  d_cron : option string;
  d_to : option string;
  d_message : option string;
  d_enabled : option bool;
  d_runOnce : option bool;
  d_accountId : option string
}.

(** The fields of [updates] ([None]: key absent). *)
Record taskUpdate := mkUpdate {
  u_id : option string;
  u_type : option task_type;
  u_cron : option string;
  u_to : option string;
  u_message : option string;
  u_channel : option string;
  u_accountId : option (option string);
  u_enabled : option bool;
  u_runOnce : option bool
}.

Definition upd {A} (o : option A) (x : A) : A := match o with Some v => v | None => x end.

(** [{ ...original, ...updates }] *)
Definition merge (t : task) (u : taskUpdate) : task :=
  mkTask (upd (u_id u) (tid t)) (upd (u_type u) (ttype t)) (upd (u_cron u) (cron t))
    (upd (u_to u) (to t)) (upd (u_message u) (message t)) (upd (u_channel u) (channel t))
    (upd (u_accountId u) (accountId t)) (upd (u_enabled u) (enabled t))
    (upd (u_runOnce u) (runOnce t)).

Section WithCron.
Variable cron_loaded : bool.
Variable validate : string -> bool.

(** [createTask(taskData, executeCallback, startListenCallback)] with the
    send callback given; [newId] is [makeTaskId()].  Starting the listener
    is the caller's callback, see [ServiceMore.createTask]. *)
Definition createTask (tm : manager) (newId : string) (td : taskData) : task * manager :=
  let taskType := toLowerCase (str_or (d_type td) "send") in
  let en := match d_enabled td with Some false => false | _ => true end in
  let task :=
    if String.eqb taskType "listen" then
      mkTask newId TListen "" "" "" (trim (str_or (d_channel td) ""))
        (Service.truthy (d_accountId td)) en false
    else
      mkTask newId TSend (str_or (d_cron td) "0 0 11 * * *") (trim (str_or (d_to td) ""))
        (trim (str_or (d_message td) "")) "" (Service.truthy (d_accountId td)) en
        (match d_runOnce td with Some true => true | _ => false end) in
  let tm1 := match ttype task with
             | TListen =>
                 mkManager (tasks tm) (scheduled tm) (scheduledExpr tm) (stoppedJobs tm)
                   (nextJob tm) (JsMap.set (listenedMessageIds tm) newId [])
                   (tasksFileWrites tm) (notifications tm)
             | TSend => tm
             end in
  let tm2 := saveTasks (set_tasks tm1 (tasks tm1 ++ [task])) in
  (task, match ttype task with
         | TSend => scheduleTask cron_loaded validate tm2 task
         | TListen => tm2
         end).

(** [updateTask(taskId, updates, executeCallback, startListenCallback)]
    with the send callback given; the listen callback is the caller's. *)
Definition updateTask (tm : manager) (taskId : string) (u : taskUpdate) : option task * manager :=
  match findIndex (tasks tm) taskId with
  | None => (None, tm)
  | Some idx =>
      match nth_error (tasks tm) idx with
      | None => (None, tm)
      | Some original =>
          let updated := merge original u in
          let tm1 := saveTasks (set_tasks tm (replace_at (tasks tm) idx updated)) in
          (Some updated, match ttype updated with
                         | TSend => scheduleTask cron_loaded validate (unschedule tm1 taskId) updated
                         | TListen => tm1
                         end)
      end
  end.
End WithCron.

(** [getProcessedMessageCount(listenTaskId)] *)
Definition getProcessedMessageCount (tm : manager) (listenTaskId : string) : nat :=
  match JsMap.get (listenedMessageIds tm) listenTaskId with
  | Some s => List.length s
  | None => 0
  end.

(** [clearProcessedMessages(listenTaskId)]: the set is emptied in place. *)
Definition clearProcessedMessages (tm : manager) (listenTaskId : string) : manager :=
  match JsMap.get (listenedMessageIds tm) listenTaskId with
  | Some _ => mkManager (tasks tm) (scheduled tm) (scheduledExpr tm) (stoppedJobs tm)
                (nextJob tm) (JsMap.set (listenedMessageIds tm) listenTaskId [])
                (tasksFileWrites tm) (notifications tm)
  | None => tm
  end.

(** A task [scheduleTask] gives a cron job. *)
Definition schedulable (cron_loaded : bool) (validate : string -> bool) (t : task) : bool :=
  enabled t && match ttype t with TSend => true | TListen => false end && cron_loaded
  && validate (normalizeCron (cron t)).
End TasksMore.

(** ** More of [TelegramService]: creating, updating and starting tasks *)
Module ServiceMore.
Import Service.

Section WithCron.
Variable cron_loaded : bool.
Variable validate : string -> bool.

Definition with_tm (s : service) (tm : Tasks.manager) : service :=
  mkService (accountManager s) tm (activeListeners s) (flags s) (loops s)
    (listenNotifications s) (sendAttempts s).

(** [startAllListenTasks()]; [latest id] is what the loop of task [id]
    gets from its initial [getMessages]. *)
Definition startAllListenTasks (s : service) (latest : string -> Monitor.page) : service :=
  fold_left (fun s t => startListenTask s t (latest (Tasks.tid t)))
    (filter (fun t => match Tasks.ttype t with
                      | Tasks.TListen => Tasks.enabled t
                      | Tasks.TSend => false
                      end) (Tasks.tasks (taskManager s))) s.

(** [createTask(taskData)]; the listen callback starts the listener. *)
Definition createTask (s : service) (newId : string) (td : TasksMore.taskData)
    (latest : Monitor.page) : Tasks.task * service :=
  let '(task, tm') := TasksMore.createTask cron_loaded validate (taskManager s) newId td in
  let s1 := with_tm s tm' in
  match Tasks.ttype task with
  | Tasks.TListen => if Tasks.enabled task then (task, startListenTask s1 task latest) else (task, s1)
  | Tasks.TSend => (task, s1)
  end.

(** [updateTask(taskId, updates)]: the old listener is stopped first, the
    listen callback starts the updated task when it is enabled. *)
Definition updateTask (s : service) (taskId : string) (u : TasksMore.taskUpdate)
    (latest : Monitor.page) : option Tasks.task * service :=
  let s1 := match Tasks.getTask (taskManager s) taskId with
            | Some t => match Tasks.ttype t with
                        | Tasks.TListen => stopListenTask s taskId
                        | Tasks.TSend => s
                        end
            | None => s
            end in
  let '(r, tm') := TasksMore.updateTask cron_loaded validate (taskManager s1) taskId u in
  let s2 := with_tm s1 tm' in
  match r with
  | Some updated =>
      match Tasks.ttype updated with
      | Tasks.TListen => if Tasks.enabled updated then (r, startListenTask s2 updated latest)
                         else (r, s2)
      | Tasks.TSend => (r, s2)
      end
  | None => (r, s2)
  end.
End WithCron.
End ServiceMore.

(** ** [notifyAll] (notification-service.js), the [notifyCallback] of the
    service factory: which webhooks are posted, and how often *)
Module Notify.

(** [s.includes(sub)] *)
Fixpoint includes (sub s : string) : bool :=
  prefix sub s || match s with EmptyString => false | String _ r => includes sub r end.

Definition isNetworkError (errMsg : string) : bool :=
  includes "ENOTFOUND" errMsg || includes "ETIMEDOUT" errMsg || includes "ECONNREFUSED" errMsg
  || includes "EAI_AGAIN" errMsg.

Record target := mkTarget { url : option string; endpoint : option string }.

(** The retry loop for one target from [attempt]: [outcome n] is the
    result of the [n]-th [postJsonWebhook] ([None]: resolved, [Some m]:
    rejected with message [m]).  Returns the number of posts and [success]. *)
Fixpoint post_go (fuel attempt maxRetries : nat) (outcome : nat -> option string) : nat * bool :=
  match fuel with
  | 0 => (0, false)
  | S fuel' =>
      match outcome attempt with
      | None => (1, true)
      | Some e =>
          if (attempt <=? maxRetries)%nat && isNetworkError e then
            let '(n, ok) := post_go fuel' (S attempt) maxRetries outcome in (S n, ok)
          else (1, false)
      end
  end.

(** [for (let attempt = 1; attempt <= opts.maxRetries + 1; attempt++)] *)
Definition postWithRetry (maxRetries : nat) (outcome : nat -> option string) : nat * bool :=
  post_go (maxRetries + 1) 1 maxRetries outcome.

(** [notifyAll(targets, title, detail, logger)] with [opts.maxRetries]:
    the webhook posted for each target, with the number of posts and
    whether one succeeded; [outcome i n] is the result of the [n]-th post
    to the [i]-th target. *)
Fixpoint notify_go (i : nat) (targets : list target) (maxRetries : nat)
    (outcome : nat -> nat -> option string) : list (string * nat * bool) :=
  match targets with
  | [] => []
  | t :: ts =>
      match Service.js_or (url t) (endpoint t) with
      | Some u => match Service.truthy (Some u) with
                  | Some u =>
                      let '(n, ok) := postWithRetry maxRetries (outcome i) in
                      (u, n, ok) :: notify_go (S i) ts maxRetries outcome
                  | None => notify_go (S i) ts maxRetries outcome
                  end
      | None => notify_go (S i) ts maxRetries outcome
      end
  end.

Definition notifyAll (targets : list target) (maxRetries : nat)
    (outcome : nat -> nat -> option string) : list (string * nat * bool) :=
  notify_go 0 targets maxRetries outcome.
End Notify.

(** * Proofs *)

(** ** Facts about the association-list maps *)
Module JsMapFacts.
Section F.
Context {V : Type}.
Implicit Types (m : JsMap.t V) (k : string) (v : V).

Lemma has_In m k : JsMap.has m k = true <-> In k (JsMap.keys m).
Proof.
  induction m as [|[k' v'] m IH]; simpl; [split; [discriminate|tauto]|].
  rewrite orb_true_iff, String.eqb_eq, IH. split; intros [H|H]; auto.
Qed.

Lemma get_In m k v : JsMap.get m k = Some v -> In (k, v) m.
Proof.
  induction m as [|[k' v'] m IH]; simpl; [discriminate|].
  destruct (String.eqb_spec k k'); [intros [= <-]; subst; auto | auto].
Qed.

Lemma get_has m k : JsMap.has m k = true -> exists v, JsMap.get m k = Some v.
Proof.
  induction m as [|[k' v'] m IH]; simpl; [discriminate|].
  destruct (String.eqb k k'); simpl; eauto.
Qed.

Lemma get_none m k : JsMap.has m k = false -> JsMap.get m k = None.
Proof.
  induction m as [|[k' v'] m IH]; simpl; auto.
  destruct (String.eqb k k'); simpl; [discriminate|auto].
Qed.

Lemma set_new m k v : JsMap.has m k = false -> JsMap.set m k v = m ++ [(k, v)].
Proof.
  induction m as [|[k' v'] m IH]; simpl; auto.
  destruct (String.eqb k k'); simpl; [discriminate|]. intros H; rewrite IH; auto.
Qed.

Lemma keys_app m1 m2 : JsMap.keys (m1 ++ m2) = JsMap.keys m1 ++ JsMap.keys m2.
Proof. unfold JsMap.keys. apply map_app. Qed.

Lemma keys_delete m k :
  JsMap.keys (JsMap.delete m k) = filter (fun x => negb (String.eqb k x)) (JsMap.keys m).
Proof.
  induction m as [|[k' v'] m IH]; simpl; auto.
  destruct (String.eqb k k'); simpl; rewrite <- IH; auto.
Qed.

Lemma delete_incl m k : incl (JsMap.delete m k) m.
Proof.
  induction m as [|[k' v'] m IH]; simpl; [intros ? []|].
  destruct (String.eqb k k'); [intros x Hx; right; auto|].
  intros x [Hx|Hx]; [left; auto|right; auto].
Qed.

Lemma filter_delete (f : V -> bool) m k :
  map fst (filter (fun p => f (snd p)) (JsMap.delete m k))
  = filter (fun x => negb (String.eqb k x)) (map fst (filter (fun p => f (snd p)) m)).
Proof.
  induction m as [|[k' v'] m IH]; simpl; auto.
  destruct (String.eqb k k') eqn:E; simpl; destruct (f v') eqn:F; simpl;
    rewrite ?E; simpl; rewrite ?IH; auto.
Qed.

(** Overwriting an existing key keeps the keys. *)
Lemma keys_set_old m k v :
  JsMap.has m k = true -> JsMap.keys (JsMap.set m k v) = JsMap.keys m.
Proof.
  induction m as [|[k' v'] m IH]; simpl; [discriminate|].
  destruct (String.eqb_spec k k'); simpl; [auto|intros H; f_equal; auto].
Qed.

Lemma set_In m k v p : In p (JsMap.set m k v) -> In p m \/ p = (k, v).
Proof.
  induction m as [|[k' v'] m IH]; simpl; [intros [H|[]]; auto|].
  destruct (String.eqb_spec k k'); simpl.
  - subst. intros [H|H]; [right; congruence|left; right; auto].
  - intros [H|H]; [left; left; auto|]. destruct (IH H); auto.
Qed.

Lemma get_set_same m k v : JsMap.get (JsMap.set m k v) k = Some v.
Proof.
  induction m as [|[k' v'] m IH]; simpl; [rewrite String.eqb_refl; auto|].
  destruct (String.eqb_spec k k'); simpl.
  - subst. rewrite String.eqb_refl. auto.
  - apply String.eqb_neq in n. rewrite n. exact IH.
Qed.

Lemma get_set_other m k k' v :
  k' <> k -> JsMap.get (JsMap.set m k v) k' = JsMap.get m k'.
Proof.
  intros Hne. induction m as [|[k0 v0] m IH]; simpl.
  - apply String.eqb_neq in Hne. rewrite Hne. reflexivity.
  - destruct (String.eqb_spec k k0); simpl.
    + subst. apply String.eqb_neq in Hne. rewrite Hne. reflexivity.
    + destruct (String.eqb k' k0); auto.
Qed.

Lemma has_set m k v : JsMap.has (JsMap.set m k v) k = true.
Proof.
  induction m as [|[k' v'] m IH]; simpl; [rewrite String.eqb_refl; auto|].
  destruct (String.eqb_spec k k'); simpl.
  - subst. rewrite String.eqb_refl. auto.
  - rewrite IH. apply orb_true_r.
Qed.
End F.
End JsMapFacts.

(** ** The registry keeps exactly one active account *)
Module AccountsInvFacts.
Import Accounts AccountsInv JsMapFacts.

Lemma filter_none (l : JsMap.t account) :
  Forall (fun p => active (snd p) = false) l ->
  filter (fun p => active (snd p)) l = [].
Proof.
  induction 1 as [|p l Hp _ IH]; simpl; [auto|]. rewrite Hp. exact IH.
Qed.

Lemma active_set_single (l : JsMap.t account) k v :
  NoDup (JsMap.keys l) -> Forall (fun p => active (snd p) = false) l ->
  JsMap.has l k = true -> active v = true ->
  map fst (filter (fun p => active (snd p)) (JsMap.set l k v)) = [k].
Proof.
  induction l as [|[k' v'] l IH]; simpl; [discriminate|].
  intros Hnd Hall Hh Hv. inversion Hall as [|? ? Hv' Hrest]; subst. simpl in Hv'.
  inversion Hnd as [|? ? Hni Hnd']; subst.
  destruct (String.eqb_spec k k').
  - subst. simpl. rewrite Hv. simpl. rewrite filter_none; auto.
  - simpl. rewrite Hv'. apply IH; auto.
Qed.

Lemma accounts_save m a act : accounts (saveAccounts (with_accounts m a act)) = a.
Proof. reflexivity. Qed.

Lemma active_save m a act : activeAccountId (saveAccounts (with_accounts m a act)) = act.
Proof. reflexivity. Qed.

Lemma inv_add m ph nm now : inv m -> inv (snd (addAccount m ph nm now)).
Proof.
  intros [[HF HN] Hact]. unfold addAccount.
  destruct (JsMap.has (accounts m) (makeAccountId ph)) eqn:Hh; [split; [split|]; auto|].
  cbn [snd]. rewrite set_new by exact Hh. cbv zeta.
  unfold inv, keys_ok, active_ids. rewrite !accounts_save, !active_save. split; [split|].
  - apply Forall_app. split; [exact HF|constructor; [reflexivity|constructor]].
  - rewrite keys_app. apply NoDup_app; [exact HN|repeat constructor; intros []|].
    intros a Ha [Hk|[]]; subst. apply has_In in Ha. cbn [fst] in Ha. congruence.
  - unfold active_ids in Hact. cbn [active]. destruct (accounts m) as [|p l] eqn:Ea.
    + right. exists (makeAccountId ph). split; reflexivity.
    + destruct Hact as [[Hnil _]|[a [Ha Hid]]]; [discriminate|].
      right. exists a. rewrite filter_app, map_app. cbn [filter snd active map].
      rewrite app_nil_r. split; assumption.
Qed.

Lemma inv_remove m k : inv m -> inv (snd (removeAccount m k)).
Proof.
  intros [[HF HN] Hact]. unfold removeAccount.
  destruct (JsMap.get (accounts m) k) as [acc|] eqn:Hg; [|split; [split|]; auto].
  destruct Hact as [[Hnil _]|[a [Ha Hid]]]; [rewrite Hnil in Hg; discriminate|].
  cbn [snd activeAccountId accounts]. rewrite Hid.
  assert (HF' : Forall (fun p => id (snd p) = fst p) (JsMap.delete (accounts m) k))
    by (eapply incl_Forall; [apply delete_incl|exact HF]).
  assert (HN' : NoDup (JsMap.keys (JsMap.delete (accounts m) k)))
    by (rewrite keys_delete; apply NoDup_filter; exact HN).
  assert (HA' : map fst (filter (fun p => active (snd p)) (JsMap.delete (accounts m) k))
                = filter (fun x => negb (String.eqb k x)) [a])
    by (rewrite filter_delete; unfold active_ids in Ha; rewrite Ha; reflexivity).
  destruct (String.eqb_spec a k) as [->|Hne].
  - simpl in HA'. rewrite String.eqb_refl in HA'. simpl in HA'.
    destruct (JsMap.delete (accounts m) k) as [|[k1 first] rest] eqn:Ed;
      unfold inv, keys_ok, active_ids; rewrite !accounts_save, !active_save.
    + split; [split; constructor|left; split; reflexivity].
    + inversion HF' as [|? ? Hk1 HFr]; subst. simpl in Hk1.
      cbn [JsMap.set]. rewrite String.eqb_refl. split; [split|].
      * constructor; [exact Hk1|exact HFr].
      * exact HN'.
      * right. exists k1. split; [|rewrite Hk1; reflexivity].
        cbn [filter snd active set_active] in HA' |- *.
        destruct (active first); cbn in HA' |- *; [discriminate|].
        rewrite HA'. reflexivity.
  - replace (String.eqb a k) with false in * by (symmetry; apply String.eqb_neq; auto).
    unfold inv, keys_ok, active_ids; rewrite !accounts_save, !active_save.
    split; [split; assumption|].
    right. exists a. split; [|reflexivity].
    rewrite HA'. cbn. replace (String.eqb k a) with false
      by (symmetry; apply String.eqb_neq; auto). reflexivity.
Qed.

Definition clear_all (l : JsMap.t account) : JsMap.t account :=
  map (fun p => (fst p, set_active (snd p) false)) l.

Lemma keys_clear l : JsMap.keys (clear_all l) = JsMap.keys l.
Proof. unfold JsMap.keys, clear_all. rewrite map_map. reflexivity. Qed.

Lemma clear_inactive l : Forall (fun p => active (snd p) = false) (clear_all l).
Proof. unfold clear_all. apply Forall_forall. intros x Hx. apply in_map_iff in Hx.
  destruct Hx as [y [<- _]]. reflexivity. Qed.

Lemma clear_ids l : Forall (fun p => id (snd p) = fst p) l ->
  Forall (fun p => id (snd p) = fst p) (clear_all l).
Proof. induction 1; constructor; auto. Qed.

(** Shape of a successful [switchAccount]. *)
Lemma switch_shape m k m' :
  switchAccount m k = (true, m') ->
  JsMap.has (accounts m) k = true /\
  exists acc, JsMap.get (clear_all (accounts m)) k = Some acc /\
    accounts m' = JsMap.set (clear_all (accounts m)) k (set_active acc true) /\
    activeAccountId m' = Some k.
Proof.
  unfold switchAccount. destruct (JsMap.has (accounts m) k) eqn:Hh; cbn; [|discriminate].
  fold (clear_all (accounts m)).
  assert (Hc : JsMap.has (clear_all (accounts m)) k = true)
    by (apply has_In; rewrite keys_clear; apply has_In; exact Hh).
  destruct (get_has _ _ Hc) as [acc Hacc]. rewrite Hacc.
  intros [= <-]. split; [reflexivity|]. exists acc. split; [reflexivity|split; reflexivity].
Qed.

Lemma switch_active_ids m k m' :
  keys_ok m -> switchAccount m k = (true, m') -> active_ids m' = [k].
Proof.
  intros [HF HN] Hs. destruct (switch_shape _ _ _ Hs) as [Hh [acc [Hg [Ha _]]]].
  unfold active_ids. rewrite Ha. apply active_set_single.
  - rewrite keys_clear. exact HN.
  - apply clear_inactive.
  - apply has_In. rewrite keys_clear. apply has_In. exact Hh.
  - reflexivity.
Qed.

Lemma inv_switch m k : inv m -> inv (snd (switchAccount m k)).
Proof.
  intros Hinv. destruct (switchAccount m k) as [[|] m'] eqn:Hs; cbn [snd].
  - pose proof Hinv as [[HF HN] _].
    destruct (switch_shape _ _ _ Hs) as [Hh [acc [Hg [Ha Hid]]]].
    split; [split|].
    + rewrite Ha. apply Forall_forall. intros p Hp. apply set_In in Hp. destruct Hp as [Hp | ->].
      * pose proof (clear_ids _ HF) as HC. rewrite Forall_forall in HC. apply HC; exact Hp.
      * apply get_In in Hg. pose proof (clear_ids _ HF) as HC.
        rewrite Forall_forall in HC. apply (HC _ Hg).
    + rewrite Ha, keys_set_old, keys_clear; [exact HN|].
      apply has_In. rewrite keys_clear. apply has_In. exact Hh.
    + right. exists k. split; [|exact Hid]. apply (switch_active_ids m); [exact (proj1 Hinv)|exact Hs].
  - unfold switchAccount in Hs. destruct (JsMap.has (accounts m) k); cbn in Hs.
    + destruct (JsMap.get _ k); discriminate.
    + injection Hs as <-. exact Hinv.
Qed.

Lemma inv_step m o : inv m -> inv (step m o).
Proof. destruct o; cbn [step]; [apply inv_add|apply inv_remove|apply inv_switch]. Qed.

Lemma inv_run ops : forall m, inv m -> inv (run m ops).
Proof. induction ops as [|o ops IH]; intros m H; cbn; [exact H|apply IH, inv_step, H]. Qed.

Lemma inv_empty : inv empty_manager.
Proof. split; [split; constructor|left; split; reflexivity]. Qed.
End AccountsInvFacts.

(** ** Claims about the registry *)
Module AccountsClaims.
Import Accounts AccountsInv AccountsInvFacts JsMapFacts.

(** Claim C2: from any registry that satisfies the invariant (the empty
    registry does, see [inv_empty]), after any sequence of [addAccount],
    [removeAccount] and [switchAccount] calls, a non-empty registry has
    exactly one account with [active = true], the one [activeAccountId]
    names; and every successful [switchAccount(id)] makes [id] the unique
    active account. *)
Theorem registry_exactly_one_active (m : manager) (ops : list op) :
  inv m ->
  (accounts (run m ops) <> [] ->
     exists a, active_ids (run m ops) = [a] /\ activeAccountId (run m ops) = Some a) /\
  (forall k m', switchAccount (run m ops) k = (true, m') -> active_ids m' = [k]).
Proof.
  intros Hinv. pose proof (inv_run ops m Hinv) as [Hk Hact]. split.
  - intros Hne. destruct Hact as [[Hnil _]|Hex]; [contradiction|exact Hex].
  - intros k m' Hs. exact (switch_active_ids _ _ _ Hk Hs).
Qed.

Lemma registry_exactly_one_active_witness :
  inv empty_manager /\
  exists a,
    active_ids (run empty_manager [OpAdd "+15551234567" (Some "Primary") "t0";
                                   OpAdd "+15550000000" None "t1"; OpSwitch "15550000000"])
      = [a] /\
    activeAccountId (run empty_manager [OpAdd "+15551234567" (Some "Primary") "t0";
                                   OpAdd "+15550000000" None "t1"; OpSwitch "15550000000"])
      = Some a.
Proof.
  assert (H : inv empty_manager) by (split; [split; constructor|left; split; reflexivity]).
  split; [exact H|].
  apply (proj1 (registry_exactly_one_active empty_manager
           [OpAdd "+15551234567" (Some "Primary") "t0";
            OpAdd "+15550000000" None "t1"; OpSwitch "15550000000"] H)).
  vm_compute. discriminate.
Defined.

(** Counterexample to claim C7 as stated: after [addAccount("1555")],
    the very first [addAccount] call with the phone ["+1555"] fails with
    the "already exists" error, because both phones derive the id
    ["1555"]. *)
Lemma addAccount_first_call_can_fail :
  fst (addAccount (snd (addAccount empty_manager "1555" None "t0")) "+1555" None "t1")
  = inl AccountAlreadyExists.
Proof. reflexivity. Qed.

(** Claim C7 (amended): [addAccount(phone, name)] succeeds when the id
    derived from [phone] is not registered yet, and stores the new account
    under that id; afterwards, and whenever the derived id is already
    registered, [addAccount] with any phone deriving that id fails with the
    "already exists" error and returns the manager unchanged (same
    accounts, same active id, no file written). *)
Theorem addAccount_already_exists (m : manager) (ph : string) (nm : option string)
    (now : string) :
  (JsMap.has (accounts m) (makeAccountId ph) = false ->
     exists acc m1, addAccount m ph nm now = (inr acc, m1) /\
       JsMap.get (accounts m1) (makeAccountId ph) = Some acc /\
       forall ph' nm' now', makeAccountId ph' = makeAccountId ph ->
         addAccount m1 ph' nm' now' = (inl AccountAlreadyExists, m1)) /\
  (JsMap.has (accounts m) (makeAccountId ph) = true ->
     addAccount m ph nm now = (inl AccountAlreadyExists, m)).
Proof.
  split.
  - intros Hh. unfold addAccount at 1. rewrite Hh. cbv zeta.
    eexists; eexists; split; [reflexivity|]. split.
    + rewrite accounts_save. apply get_set_same.
    + intros ph' nm' now' Heq. unfold addAccount. rewrite Heq, accounts_save, has_set.
      reflexivity.
  - intros Hh. unfold addAccount. rewrite Hh. reflexivity.
Qed.

Lemma addAccount_already_exists_witness :
  JsMap.has (accounts empty_manager) (makeAccountId "+15551234567") = false /\
  exists acc m1, addAccount empty_manager "+15551234567" (Some "Primary") "t0" = (inr acc, m1) /\
    JsMap.get (accounts m1) (makeAccountId "+15551234567") = Some acc /\
    forall ph' nm' now', makeAccountId ph' = makeAccountId "+15551234567" ->
      addAccount m1 ph' nm' now' = (inl AccountAlreadyExists, m1).
Proof.
  split; [reflexivity|].
  apply (proj1 (addAccount_already_exists empty_manager "+15551234567" (Some "Primary") "t0")).
  reflexivity.
Defined.

Lemma get_has_true (l : JsMap.t account) k v : JsMap.get l k = Some v -> JsMap.has l k = true.
Proof.
  intros H. apply has_In. apply get_In in H. unfold JsMap.keys.
  change k with (fst (k, v)). apply in_map. exact H.
Qed.

(** Claim C10: [updateAccount(accountId, updates)] on a registered id
    changes only the [name] field of that account (to [updates.name] when
    it is defined): its [id], [phone], [active], [sessionFile] and
    [createdAt] stay, every other account and the active id stay; on an
    unknown id it returns [null] and the manager is unchanged. *)
Theorem updateAccount_only_name (m : manager) (k : string) (upd : option string) :
  match updateAccount m k upd with
  | (None, m') => JsMap.get (accounts m) k = None /\ m' = m
  | (Some acc', m') =>
      exists acc, JsMap.get (accounts m) k = Some acc /\
        id acc' = id acc /\ phone acc' = phone acc /\ active acc' = active acc /\
        sessionFile acc' = sessionFile acc /\ createdAt acc' = createdAt acc /\
        name acc' = match upd with Some n => n | None => name acc end /\
        JsMap.get (accounts m') k = Some acc' /\
        JsMap.keys (accounts m') = JsMap.keys (accounts m) /\
        (forall k', k' <> k -> JsMap.get (accounts m') k' = JsMap.get (accounts m) k') /\
        activeAccountId m' = activeAccountId m
  end.
Proof.
  unfold updateAccount. destruct (JsMap.get (accounts m) k) as [acc|] eqn:Hg; [|auto].
  exists acc. split; [reflexivity|].
  destruct upd as [n|]; cbn [set_name id phone active sessionFile createdAt name];
    repeat split; rewrite ?accounts_save, ?active_save;
    auto using get_set_same, get_set_other.
  all: apply keys_set_old; eapply get_has_true; exact Hg.
Qed.

Lemma updateAccount_only_name_witness :
  match updateAccount (snd (addAccount empty_manager "+1555" None "t0")) "1555" (Some "New") with
  | (None, m') => JsMap.get (accounts (snd (addAccount empty_manager "+1555" None "t0"))) "1555" = None /\
                  m' = snd (addAccount empty_manager "+1555" None "t0")
  | (Some acc', m') =>
      exists acc, JsMap.get (accounts (snd (addAccount empty_manager "+1555" None "t0"))) "1555" = Some acc /\
        id acc' = id acc /\ phone acc' = phone acc /\ active acc' = active acc /\
        sessionFile acc' = sessionFile acc /\ createdAt acc' = createdAt acc /\
        name acc' = "New" /\
        JsMap.get (accounts m') "1555" = Some acc' /\
        JsMap.keys (accounts m') = JsMap.keys (accounts (snd (addAccount empty_manager "+1555" None "t0"))) /\
        (forall k', k' <> "1555" -> JsMap.get (accounts m') k' =
                      JsMap.get (accounts (snd (addAccount empty_manager "+1555" None "t0"))) k') /\
        activeAccountId m' = activeAccountId (snd (addAccount empty_manager "+1555" None "t0"))
  end.
Proof. exact (updateAccount_only_name (snd (addAccount empty_manager "+1555" None "t0")) "1555" (Some "New")). Defined.
End AccountsClaims.

(** ** Claims about the scheduler *)
Module TaskClaims.
Import Tasks JsMapFacts.

(** Claim C9: a cron expression whose trimmed text splits into five
    fields is normalised by prefixing a ["0"] seconds field, and an enabled
    send task with such an expression is scheduled with the normalised
    expression (when [node-cron] is loaded and validates it); in
    particular ["30 8 * * *"] becomes ["0 30 8 * * *"]. *)
Theorem scheduleTask_five_field_cron (cron_loaded : bool) (validate : string -> bool)
    (tm : manager) (t : task) :
  normalizeCron "30 8 * * *" = "0 30 8 * * *" /\
  (List.length (split_ws (trim (cron t))) = 5 ->
   normalizeCron (cron t) = ("0 " ++ trim (cron t))%string /\
   (enabled t = true -> ttype t = TSend -> cron_loaded = true ->
    validate (("0 " ++ trim (cron t))%string) = true ->
    exists j, JsMap.get (scheduled (scheduleTask cron_loaded validate tm t)) (tid t) = Some j /\
              In (j, ("0 " ++ trim (cron t))%string)
                 (scheduledExpr (scheduleTask cron_loaded validate tm t)))).
Proof.
  split; [reflexivity|]. intros H5.
  assert (Hn : normalizeCron (cron t) = ("0 " ++ trim (cron t))%string)
    by (unfold normalizeCron; cbv zeta; rewrite H5; reflexivity).
  split; [exact Hn|]. intros He Ht Hc Hv.
  unfold scheduleTask. rewrite He, Ht, Hc. cbn [negb]. rewrite Hn, Hv. cbn.
  exists (nextJob tm). split; [apply get_set_same|left; reflexivity].
Qed.

Lemma scheduleTask_five_field_cron_witness :
  List.length (split_ws (trim "30 8 * * *")) = 5 /\
  exists j,
    JsMap.get (scheduled (scheduleTask true (fun _ => true)
      (mkManager [] [] [] [] 0 [] [] []) (mkTask "t1" TSend "30 8 * * *" "@bot" "hi" "" None true false)))
      "t1" = Some j /\
    In (j, ("0 " ++ trim "30 8 * * *")%string)
      (scheduledExpr (scheduleTask true (fun _ => true)
        (mkManager [] [] [] [] 0 [] [] []) (mkTask "t1" TSend "30 8 * * *" "@bot" "hi" "" None true false))).
Proof.
  split; [reflexivity|].
  apply (proj2 (proj2 (scheduleTask_five_field_cron true (fun _ => true)
           (mkManager [] [] [] [] 0 [] [] [])
           (mkTask "t1" TSend "30 8 * * *" "@bot" "hi" "" None true false)) eq_refl));
    reflexivity.
Defined.

Lemma findIndex_In l id : In id (map tid l) -> exists idx, findIndex l id = Some idx.
Proof.
  induction l as [|t l IH]; cbn; [intros []|].
  destruct (String.eqb_spec (tid t) id); [eauto|].
  intros [H|H]; [contradiction|]. destruct (IH H) as [idx ->]. cbn. eauto.
Qed.

Lemma findIndex_replace l id idx :
  findIndex l id = Some idx ->
  exists cur, nth_error l idx = Some cur /\
    forall x, find (fun t => String.eqb (tid t) id) (replace_at l idx x) =
              (if String.eqb (tid x) id then Some x
               else find (fun t => String.eqb (tid t) id) (skipn (S idx) l)).
Proof.
  revert idx. induction l as [|t l IH]; intros idx; cbn; [discriminate|].
  destruct (String.eqb (tid t) id) eqn:E.
  - intros [= <-]. exists t. split; [reflexivity|]. intros x. cbn. reflexivity.
  - destruct (findIndex l id) as [i|] eqn:Hi; cbn; [|discriminate].
    intros [= <-]. destruct (IH i eq_refl) as [cur [Hn Hf]].
    exists cur. split; [exact Hn|]. intros x. cbn. rewrite E. apply Hf.
Qed.

Lemma has_delete {V} (m : JsMap.t V) k : JsMap.has (JsMap.delete m k) k = false.
Proof.
  induction m as [|[k' v'] m IH]; cbn; [reflexivity|].
  destruct (String.eqb_spec k k'); [exact IH|]. cbn.
  apply String.eqb_neq in n. rewrite n. exact IH.
Qed.

(** Claim C8: when the cron job [j] of a [runOnce] send task fires,
    whatever the outcome of the send, afterwards the task (still in the
    list) reads [enabled = false], the task list is the last snapshot
    written to the tasks file, the job has been stopped and the task id is
    no longer in the schedule map. *)
Theorem fireJob_runOnce (tm : manager) (t : task) (j : job) (r : exec_result) :
  runOnce t = true -> In (tid t) (map tid (tasks tm)) ->
  (exists t', getTask (fireJob tm t j r) (tid t) = Some t' /\ enabled t' = false) /\
  head (tasksFileWrites (fireJob tm t j r)) = Some (tasks (fireJob tm t j r)) /\
  In j (stoppedJobs (fireJob tm t j r)) /\
  JsMap.has (scheduled (fireJob tm t j r)) (tid t) = false.
Proof.
  intros Hr Hin. destruct (findIndex_In _ _ Hin) as [idx Hidx].
  destruct (findIndex_replace _ _ _ Hidx) as [cur [Hnth Hfind]].
  assert (Hcur : tid cur = tid t).
  { clear Hfind Hin. revert idx Hidx Hnth. induction (tasks tm) as [|x l IH]; intros idx;
      cbn; [discriminate|].
    destruct (String.eqb_spec (tid x) (tid t)).
    - intros [= <-] [= <-]. exact e.
    - destruct (findIndex l (tid t)) as [i|] eqn:Hi; cbn; [|discriminate].
      intros [= <-]. cbn. apply IH; reflexivity. }
  unfold fireJob. rewrite Hr.
  destruct r; cbn [tasks set_scheduled notify]; rewrite Hidx, Hnth;
    unfold getTask; cbn; rewrite Hfind; cbn [disable tid]; rewrite Hcur, String.eqb_refl;
    (split; [eexists; split; reflexivity|]); (split; [reflexivity|]);
    (split; [left; reflexivity|]); apply has_delete.
Qed.

Lemma fireJob_runOnce_witness :
  runOnce (mkTask "t1" TSend "30 8 * * *" "@bot" "hi" "" None true true) = true /\
  In "t1" (map tid [mkTask "t1" TSend "30 8 * * *" "@bot" "hi" "" None true true]) /\
  exists t', getTask (fireJob (mkManager [mkTask "t1" TSend "30 8 * * *" "@bot" "hi" "" None true true]
                                  [("t1", 0)] [(0, "0 30 8 * * *")] [] 1 [] [] [])
                       (mkTask "t1" TSend "30 8 * * *" "@bot" "hi" "" None true true) 0 ExecErr) "t1"
             = Some t' /\ enabled t' = false.
Proof.
  split; [reflexivity|]. split; [left; reflexivity|].
  apply (proj1 (fireJob_runOnce (mkManager [mkTask "t1" TSend "30 8 * * *" "@bot" "hi" "" None true true]
                                  [("t1", 0)] [(0, "0 30 8 * * *")] [] 1 [] [] [])
                 (mkTask "t1" TSend "30 8 * * *" "@bot" "hi" "" None true true) 0 ExecErr
                 eq_refl (or_introl eq_refl))).
Defined.
End TaskClaims.

(** ** Claims about listen-task deduplication *)
Module ListenClaims.
Import Tasks ListenCallback JsMapFacts.

Lemma processed_mark tm tk m :
  processedIds (snd (markMessageAsProcessed tm tk m)) tk =
  if existsb (Nat.eqb m) (processedIds tm tk) then processedIds tm tk
  else processedIds tm tk ++ [m].
Proof.
  unfold processedIds, markMessageAsProcessed. cbn [snd listenedMessageIds].
  rewrite get_set_same. fold (processedIds tm tk). unfold processedIds.
  destruct (existsb _ _); reflexivity.
Qed.

Lemma existsb_eqb_In m l : existsb (Nat.eqb m) l = true <-> In m l.
Proof.
  rewrite existsb_exists. split.
  - intros [x [Hx E]]. apply Nat.eqb_eq in E. subst. exact Hx.
  - intros H. exists m. split; [exact H|apply Nat.eqb_refl].
Qed.

(** One notification per processed id. *)
Definition counts_ok (tk : string) (st : manager * list nat) : Prop :=
  forall x, count_occ Nat.eq_dec (snd st) x =
            if in_dec Nat.eq_dec x (processedIds (fst st) tk) then 1 else 0.

Lemma onMessage_counts tk st m :
  counts_ok tk st -> counts_ok tk (onMessage true tk st m) /\
  (forall x, In x (processedIds (fst (onMessage true tk st m)) tk) <->
             In x (processedIds (fst st) tk) \/ x = m).
Proof.
  destruct st as [tm ns]. intros Hc. unfold counts_ok in Hc. cbn [fst snd] in Hc. unfold onMessage. cbn [fst snd].
  pose proof (processed_mark tm tk m) as Hp.
  destruct (markMessageAsProcessed tm tk m) as [b tm'] eqn:Hm.
  assert (Hb : b = negb (existsb (Nat.eqb m) (processedIds tm tk)))
    by (unfold markMessageAsProcessed in Hm; injection Hm as <- _; reflexivity).
  cbn [snd] in Hp. subst b.
  destruct (existsb (Nat.eqb m) (processedIds tm tk)) eqn:Ee; cbn [negb];
    unfold counts_ok in *; cbn [fst snd]; rewrite Hp.
  - apply existsb_eqb_In in Ee. split; [exact Hc|].
    intros x. split; [auto|intros [H| ->]; auto].
  - assert (Hni : ~ In m (processedIds tm tk))
      by (intros H; apply existsb_eqb_In in H; congruence).
    split.
    + intros x. rewrite count_occ_app. cbn. rewrite Hc.
      destruct (Nat.eq_dec m x) as [<-|Hne].
      * destruct (in_dec Nat.eq_dec m (processedIds tm tk)); [contradiction|].
        destruct (in_dec Nat.eq_dec m (processedIds tm tk ++ [m])) as [_|Hn];
          [reflexivity|exfalso; apply Hn, in_or_app; right; left; reflexivity].
      * rewrite Nat.add_0_r.
        destruct (in_dec Nat.eq_dec x (processedIds tm tk)) as [Hx|Hx];
        destruct (in_dec Nat.eq_dec x (processedIds tm tk ++ [m])) as [Hy|Hy]; auto.
        -- exfalso. apply Hy, in_or_app. left. exact Hx.
        -- apply in_app_or in Hy. destruct Hy as [Hy|[Hy|[]]]; [contradiction|congruence].
    + intros x. rewrite in_app_iff. cbn. split; intros [H|H]; auto.
      * destruct H as [H|[]]; auto.
Qed.

Lemma fold_onMessage tk b : forall st,
  counts_ok tk st -> counts_ok tk (fold_left (onMessage true tk) b st) /\
  (forall x, In x (processedIds (fst (fold_left (onMessage true tk) b st)) tk) <->
             In x (processedIds (fst st) tk) \/ In x b).
Proof.
  induction b as [|m b IH]; intros st Hc; cbn.
  - split; [exact Hc|]. intros x. split; [auto|intros [H|[]]; exact H].
  - destruct (onMessage_counts tk st m Hc) as [Hc1 Hi1].
    destruct (IH _ Hc1) as [Hc2 Hi2]. split; [exact Hc2|].
    intros x. rewrite Hi2, Hi1. cbn. split; intros H; intuition (subst; auto).
Qed.

Lemma deliver_counts tk bs : forall st,
  counts_ok tk st -> counts_ok tk (deliverBatches true tk st bs) /\
  (forall x, In x (processedIds (fst (deliverBatches true tk st bs)) tk) <->
             In x (processedIds (fst st) tk) \/ In x (List.concat bs)).
Proof.
  unfold deliverBatches. induction bs as [|b bs IH]; intros st Hc; cbn.
  - split; [exact Hc|]. intros x. split; [auto|intros [H|[]]; exact H].
  - destruct (fold_onMessage tk b st Hc) as [Hc1 Hi1].
    destruct (IH _ Hc1) as [Hc2 Hi2]. split; [exact Hc2|].
    intros x. rewrite Hi2, Hi1, in_app_iff. tauto.
Qed.

(** Claim C3: [markMessageAsProcessed(taskId, msgId)] returns [true] when
    [msgId] is not yet in the task's set and [false] once it is, the set
    only grows, and, with the notification sink set, feeding any sequence
    of (possibly overlapping) batches to the callback of a listen task
    whose set starts empty notifies each distinct message id exactly
    once. *)
Theorem listen_dedup_exactly_once :
  (forall tm tk m, ~ In m (processedIds tm tk) ->
     fst (markMessageAsProcessed tm tk m) = true /\
     In m (processedIds (snd (markMessageAsProcessed tm tk m)) tk)) /\
  (forall tm tk m, In m (processedIds tm tk) -> fst (markMessageAsProcessed tm tk m) = false) /\
  (forall tm tk tk' m m', In m (processedIds tm tk) ->
     In m (processedIds (snd (markMessageAsProcessed tm tk' m')) tk)) /\
  (forall tm tk bs, processedIds tm tk = [] ->
     forall x, count_occ Nat.eq_dec (snd (deliverBatches true tk (tm, []) bs)) x =
               if in_dec Nat.eq_dec x (List.concat bs) then 1 else 0).
Proof.
  split; [|split; [|split]].
  - intros tm tk m Hn. rewrite processed_mark.
    assert (E : existsb (Nat.eqb m) (processedIds tm tk) = false)
      by (destruct (existsb _ _) eqn:E; [apply existsb_eqb_In in E; contradiction|reflexivity]).
    rewrite E. split; [unfold markMessageAsProcessed; cbn; unfold processedIds in E; rewrite E; reflexivity|].
    apply in_or_app. right. left. reflexivity.
  - intros tm tk m H. apply existsb_eqb_In in H. unfold markMessageAsProcessed. cbn.
    unfold processedIds in H. rewrite H. reflexivity.
  - intros tm tk tk' m m' H. destruct (String.eqb_spec tk' tk) as [<-|Hne].
    + rewrite processed_mark. destruct (existsb _ _); [exact H|apply in_or_app; left; exact H].
    + unfold processedIds, markMessageAsProcessed in *. cbn.
      rewrite get_set_other by (intros E; apply Hne; symmetry; exact E). exact H.
  - intros tm tk bs H0 x.
    assert (Hc0 : counts_ok tk (tm, [])).
    { intros y. cbn. rewrite H0. reflexivity. }
    destruct (deliver_counts tk bs (tm, []) Hc0) as [Hc Hi].
    rewrite Hc. cbn [fst] in Hi.
    destruct (in_dec Nat.eq_dec x (processedIds _ tk)) as [Hx|Hx];
    destruct (in_dec Nat.eq_dec x (List.concat bs)) as [Hy|Hy]; auto.
    + apply Hi in Hx. rewrite H0 in Hx. destruct Hx as [[]|Hx]; contradiction.
    + exfalso. apply Hx, Hi. right. exact Hy.
Qed.

Lemma listen_dedup_exactly_once_witness :
  processedIds (mkManager [] [] [] [] 0 [] [] []) "L" = [] /\
  count_occ Nat.eq_dec
    (snd (deliverBatches true "L" (mkManager [] [] [] [] 0 [] [] [], [])
            [[10; 11; 12]; [11; 12; 13]])) 11 = 1 /\
  snd (deliverBatches true "L" (mkManager [] [] [] [] 0 [] [] [], [])
         [[10; 11; 12]; [11; 12; 13]]) = [10; 11; 12; 13].
Proof.
  split; [reflexivity|]. split; [|vm_compute; reflexivity].
  rewrite (proj2 (proj2 (proj2 listen_dedup_exactly_once)) (mkManager [] [] [] [] 0 [] [] []) "L"
             [[10; 11; 12]; [11; 12; 13]] eq_refl 11).
  reflexivity.
Defined.
End ListenClaims.

(** ** Claims about the poll loop *)
Module MonitorClaims.
Import Monitor MonitorSpec.

Lemma last_cons_default (x : nat) t b : last (x :: t) b = last t x.
Proof.
  revert x b. induction t as [|y t IH]; intros x b; [reflexivity|].
  change (last (x :: y :: t) b) with (last (y :: t) b).
  rewrite !IH. reflexivity.
Qed.

Lemma incr_from_app b l1 l2 :
  incr_from b (l1 ++ l2) = incr_from b l1 && incr_from (last l1 b) l2.
Proof.
  revert b. induction l1 as [|x t IH]; intros b; [reflexivity|].
  cbn [app incr_from]. rewrite IH, last_cons_default, andb_assoc. reflexivity.
Qed.

Lemma incr_from_gt b l : incr_from b l = true -> forall y, In y l -> (b < y)%nat.
Proof.
  revert b. induction l as [|x t IH]; intros b H y Hy; [destruct Hy|].
  cbn in H. apply andb_true_iff in H. destruct H as [Hb Ht]. apply Nat.ltb_lt in Hb.
  destruct Hy as [<-|Hy]; [exact Hb|]. specialize (IH x Ht y Hy). lia.
Qed.

Lemma collect_gt msgs last : Forall (fun i => (last < i)%nat) (collect msgs last).
Proof.
  induction msgs as [|i rest IH]; cbn; [constructor|].
  destruct ((i =? 0)%nat || (i <=? last)%nat) eqn:E; [constructor|].
  apply orb_false_iff in E. destruct E as [_ E]. apply Nat.leb_gt in E.
  constructor; [exact E|exact IH].
Qed.

(** Invariant of the processing [fold_left] started at [b]. *)
Definition proc_inv (b : nat) (st : nat * list nat) : Prop :=
  incr_from b (snd st) = true /\ last (snd st) b = fst st /\ (b <= fst st)%nat.

Lemma process_fold b xs : forall st, proc_inv b st ->
  proc_inv b (fold_left (fun st i => if (fst st <? i)%nat then (i, snd st ++ [i]) else st) xs st).
Proof.
  induction xs as [|i xs IH]; intros [cur ds] [H1 [H2 H3]]; cbn [fold_left];
    [split; auto|].
  apply IH. cbn [fst snd] in *. destruct (cur <? i)%nat eqn:E; [|split; auto].
  apply Nat.ltb_lt in E. unfold proc_inv. cbn [fst snd]. split; [|split].
  - rewrite incr_from_app, H1, H2. cbn [incr_from]. apply Nat.ltb_lt in E. rewrite E. reflexivity.
  - apply last_last.
  - lia.
Qed.

Lemma cycle_inv b p : proc_inv b (cycle b p).
Proof.
  destruct p as [msgs|]; [|split; cbn; auto].
  apply process_fold. split; cbn; auto.
Qed.

Lemma loop_inv cycles : forall b,
  incr_from b (snd (loop b cycles)) = true /\ (b <= fst (loop b cycles))%nat.
Proof.
  induction cycles as [|[stop p] rest IH]; intros b; cbn; [auto|].
  destruct stop; cbn; [auto|].
  pose proof (cycle_inv b p) as [C1 [C2 C3]].
  destruct (cycle b p) as [l1 d1]. cbn in *.
  destruct (IH l1) as [I1 I2]. destruct (loop l1 rest) as [l2 d2]. cbn in *.
  rewrite incr_from_app, C1, C2, I1. split; [reflexivity|lia].
Qed.

(** Counterexample to claim C4 as stated: when the initial
    [getMessages(entity, { limit: 1 })] throws, the baseline stays [0]
    and message [5], already the newest one when monitoring started, is
    delivered on the first cycle. *)
Lemma monitorChannel_replays_on_baseline_error :
  monitorChannel None [(false, Some [5])] = [5].
Proof. reflexivity. Qed.

(** Claim C4 (amended): each cycle keeps only fetched messages with id
    strictly above the last-seen id, hands them to the callback oldest
    first, and never lowers the last-seen id; over the whole run the
    delivered ids strictly increase from the baseline; when the initial
    newest-message fetch succeeded (newest id [i]), no delivered message
    has an id up to [i], so nothing present at start is replayed. *)
Theorem monitorChannel_newer_only :
  (forall last msgs, Forall (fun i => (last < i)%nat) (collect msgs last)) /\
  (forall last p, (last <= fst (cycle last p))%nat /\
                  incr_from last (snd (cycle last p)) = true) /\
  (forall latest cycles, incr_from (baseline latest) (monitorChannel latest cycles) = true) /\
  (forall i rest cycles x, In x (monitorChannel (Some (i :: rest)) cycles) -> (i < x)%nat).
Proof.
  split; [intros last msgs; apply collect_gt|split; [|split]].
  - intros last p. pose proof (cycle_inv last p) as [H1 [_ H3]]. auto.
  - intros latest cycles. apply (loop_inv cycles).
  - intros i rest cycles x Hx.
    pose proof (proj1 (loop_inv cycles (baseline (Some (i :: rest))))) as H.
    pose proof (incr_from_gt _ _ H x Hx) as Hlt. cbn in Hlt.
    destruct (i =? 0)%nat eqn:E; [apply Nat.eqb_eq in E; lia|exact Hlt].
Qed.

Lemma monitorChannel_newer_only_witness :
  In 13 (monitorChannel (Some [12]) [(false, Some [14; 13; 12]); (true, Some [15])]) /\
  (12 < 13)%nat.
Proof.
  split; [vm_compute; auto|].
  apply (proj2 (proj2 (proj2 monitorChannel_newer_only)) 12 [] [(false, Some [14; 13; 12]); (true, Some [15])] 13).
  vm_compute. auto.
Defined.
End MonitorClaims.

(** ** Claims about the service *)
Module ServiceClaims.
Import Service Scenario JsMapFacts.

(** [switchAccount] touches neither the listener registry nor the
    running loops. *)
Lemma switchAccount_listeners_unchanged cron_loaded validate s k :
  activeListeners (snd (switchAccount cron_loaded validate s k)) = activeListeners s /\
  loops (snd (switchAccount cron_loaded validate s k)) = loops s /\
  flags (snd (switchAccount cron_loaded validate s k)) = flags s.
Proof.
  unfold switchAccount. destruct (Accounts.switchAccount (accountManager s) k) as [[|] am'];
    cbn; auto.
Qed.

(** Claim C1 fails on the code: with accounts ["1555"] (active) and
    ["1666"] and a running listener for the unscoped listen task ["L"],
    [switchAccount("1666")] succeeds and makes ["1666"] the account that
    unscoped tasks resolve to, yet the listener of ["L"] is not restarted:
    it keeps running on the session of ["1555"] with the same stop flag. *)
Theorem switchAccount_does_not_restart_listeners :
  fst (switchAccount true (fun _ => true) s1 "1666") = true /\
  JsMap.get (activeListeners s1) "L" = Some (mkListener 0 "1555") /\
  JsMap.get (activeListeners (snd (switchAccount true (fun _ => true) s1 "1666"))) "L"
    = Some (mkListener 0 "1555") /\
  loops (snd (switchAccount true (fun _ => true) s1 "1666")) = loops s1 /\
  getSession (accountManager (snd (switchAccount true (fun _ => true) s1 "1666")))
    (js_or (Tasks.accountId listenL)
       (Accounts.activeAccountId (accountManager (snd (switchAccount true (fun _ => true) s1 "1666")))))
    = Some "1666".
Proof. vm_compute. repeat split. Qed.

(** Claim C5: for an existing task and the account [acc] its session
    resolves to ([accountId || task.accountId || active account]),
    [runTaskNow] hands the task's recipient and text to [sendMessage]
    whenever the session reports [authorized = true], whatever the task's
    [enabled] flag, and succeeds when the send resolves; when the session
    reports [authorized = false] it sends nothing and returns
    [{ success: false, message: '账号未授权，无法发送消息' }]. *)
Theorem runTaskNow_requires_only_authorization authorized sendOutcome s taskId accountId task acc :
  Tasks.getTask (taskManager s) taskId = Some task ->
  getSession (accountManager s)
    (js_or accountId (js_or (Tasks.accountId task) (Accounts.activeAccountId (accountManager s))))
    = Some acc ->
  (authorized acc = true ->
     sendAttempts (snd (runTaskNow authorized sendOutcome s taskId accountId))
       = (acc, Tasks.to task, Tasks.message task) :: sendAttempts s /\
     (sendOutcome acc = None ->
        fst (runTaskNow authorized sendOutcome s taskId accountId)
          = (true, ("消息已发送至 " ++ Tasks.to task)%string))) /\
  (authorized acc = false ->
     runTaskNow authorized sendOutcome s taskId accountId
       = ((false, "账号未授权，无法发送消息"), s)).
Proof.
  intros Ht Hs. unfold runTaskNow. rewrite Ht. cbv zeta. rewrite Hs. split.
  - intros Ha. rewrite Ha. cbn [negb]. destruct (sendOutcome acc) eqn:Eo; cbn.
    + split; [reflexivity|discriminate].
    + split; reflexivity.
  - intros Ha. rewrite Ha. reflexivity.
Qed.

Lemma runTaskNow_requires_only_authorization_witness :
  Tasks.enabled sendS = false /\
  sendAttempts (snd (runTaskNow (fun _ => true) (fun _ => None)
                       (mkService am0 tm0 [] [] [] [] []) "S" None))
    = [("1555", "@bot", "/ping")] /\
  runTaskNow (fun _ => false) (fun _ => None) (mkService am0 tm0 [] [] [] [] []) "S" None
    = ((false, "账号未授权，无法发送消息"), mkService am0 tm0 [] [] [] [] []).
Proof.
  split; [reflexivity|]. split.
  - apply (proj1 (runTaskNow_requires_only_authorization (fun _ => true) (fun _ => None)
                    (mkService am0 tm0 [] [] [] [] []) "S" None sendS "1555"
                    eq_refl eq_refl) eq_refl).
  - apply (proj2 (runTaskNow_requires_only_authorization (fun _ => false) (fun _ => None)
                    (mkService am0 tm0 [] [] [] [] []) "S" None sendS "1555"
                    eq_refl eq_refl) eq_refl).
Defined.

Lemma set_true_length fl i : List.length (set_true fl i) = List.length fl.
Proof.
  revert i. induction fl as [|b fl IH]; intros [|i]; cbn; auto.
Qed.

Lemma set_true_at fl i : (i < List.length fl)%nat -> nth i (set_true fl i) false = true.
Proof.
  revert i. induction fl as [|b fl IH]; intros [|i] H; cbn in *; try lia; auto.
  apply IH. lia.
Qed.

Lemma set_true_mono fl i j : nth j fl false = true -> nth j (set_true fl i) false = true.
Proof.
  revert i j. induction fl as [|b fl IH]; intros [|i] [|j] H; cbn in *; auto.
Qed.

Lemma flag_set_stop f s k : flag_set f s -> flag_set f (stopListenTask s k).
Proof.
  unfold stopListenTask. destruct (JsMap.get (activeListeners s) k); [|auto].
  intros [H1 H2]. split; cbn; [rewrite set_true_length; exact H1|apply set_true_mono; exact H2].
Qed.

Lemma flag_set_step cron_loaded validate authorized sendOutcome f s o :
  flag_set f s ->
  flag_set f (step cron_loaded validate authorized sendOutcome s o) /\
  tagged f (listenNotifications (step cron_loaded validate authorized sendOutcome s o))
    = tagged f (listenNotifications s).
Proof.
  intros Hf. destruct o as [t latest|k|k|k|i pg|k a]; cbn [step].
  - unfold startListenTask. destruct (Tasks.ttype t); [split; auto|].
    pose proof (flag_set_stop f s (Tasks.tid t) Hf) as [H1 H2].
    assert (Hn : listenNotifications (stopListenTask s (Tasks.tid t)) = listenNotifications s)
      by (unfold stopListenTask; destruct (JsMap.get _ _); reflexivity).
    destruct (getSession _ _); [|split; [split; auto|rewrite Hn; reflexivity]].
    split; [|cbn; rewrite Hn; reflexivity].
    split; cbn; [rewrite length_app; lia|rewrite app_nth1 by exact H1; exact H2].
  - split; [apply flag_set_stop, Hf|].
    unfold stopListenTask. destruct (JsMap.get _ _); reflexivity.
  - unfold deleteTask.
    set (s1 := match Tasks.getTask (taskManager s) k with
               | Some t => match Tasks.ttype t with
                           | Tasks.TListen => stopListenTask s k
                           | Tasks.TSend => s end
               | None => s end).
    assert (H1 : flag_set f s1 /\ listenNotifications s1 = listenNotifications s).
    { subst s1. destruct (Tasks.getTask _ _) as [t|]; [destruct (Tasks.ttype t)|]; auto.
      split; [apply flag_set_stop, Hf|unfold stopListenTask; destruct (JsMap.get _ _); reflexivity]. }
    destruct H1 as [[Ha Hb] Hn]. destruct (Tasks.deleteTask _ _). cbn.
    split; [split; auto|rewrite Hn; reflexivity].
  - destruct (switchAccount_listeners_unchanged cron_loaded validate s k) as [_ [_ Hfl]].
    unfold switchAccount in *. destruct (Accounts.switchAccount _ _) as [[|] am'];
      cbn in *; [|split; auto].
    split; [unfold flag_set; cbn; exact Hf|reflexivity].
  - unfold cycleLoop. destruct (nth_error (loops s) i) as [lp|]; [|split; auto].
    destruct (lp_done lp); [split; auto|].
    destruct (nth (lp_flag lp) (flags s) false) eqn:Ef; [split; [exact Hf|reflexivity]|].
    destruct (Monitor.cycle _ _) as [last' delivered].
    destruct (fold_left _ _ _) as [tm' ns]. split; [exact Hf|].
    cbn [listenNotifications]. unfold tagged. rewrite filter_app.
    assert (Hne : lp_flag lp <> f) by (intros E; rewrite E in Ef; destruct Hf as [_ Hf]; congruence).
    replace (filter (fun q => Nat.eqb (fst q) f) (map (fun m => (lp_flag lp, m)) ns)) with
      (@nil (nat * nat)); [apply app_nil_r|].
    induction ns as [|m ns IH]; cbn; [reflexivity|].
    apply Nat.eqb_neq in Hne. rewrite Hne. exact IH.
  - unfold runTaskNow. destruct (Tasks.getTask _ _) as [t|]; [|split; auto].
    destruct (getSession _ _) as [acc|]; [|split; auto].
    destruct (negb (authorized acc)); [split; auto|].
    destruct (sendOutcome acc); cbn; split; auto.
Qed.

Lemma flag_set_run cron_loaded validate authorized sendOutcome f ops : forall s,
  flag_set f s ->
  tagged f (listenNotifications (run cron_loaded validate authorized sendOutcome s ops))
    = tagged f (listenNotifications s).
Proof.
  induction ops as [|o ops IH]; intros s Hf; [reflexivity|].
  destruct (flag_set_step cron_loaded validate authorized sendOutcome f s o Hf) as [H1 H2].
  specialize (IH _ H1). unfold run in *. cbn [fold_left]. rewrite IH. exact H2.
Qed.

(** Claim C6: deleting a listen task whose listener is registered with
    stop flag [f] removes the listener and sets [f]; from then on, whatever
    the service does (starting, stopping or deleting tasks, switching
    accounts, running tasks, and any number of poll cycles of any loop),
    no loop polling [f] sends another notification: each such loop sees
    [stopCondition()] true at the top of its next cycle and exits. *)
Theorem deleteTask_stops_listener cron_loaded validate authorized sendOutcome
    (s : service) (taskId : string) (t : Tasks.task) (l : listener) :
  Tasks.getTask (taskManager s) taskId = Some t -> Tasks.ttype t = Tasks.TListen ->
  JsMap.get (activeListeners s) taskId = Some l ->
  (stopFlag l < List.length (flags s))%nat ->
  JsMap.get (activeListeners (snd (deleteTask s taskId))) taskId = None /\
  nth (stopFlag l) (flags (snd (deleteTask s taskId))) false = true /\
  forall ops,
    tagged (stopFlag l)
      (listenNotifications
         (run cron_loaded validate authorized sendOutcome (snd (deleteTask s taskId)) ops))
    = tagged (stopFlag l) (listenNotifications (snd (deleteTask s taskId))).
Proof.
  intros Ht Hty Hl Hlen.
  assert (Hd : snd (deleteTask s taskId) =
            let s1 := stopListenTask s taskId in
            mkService (accountManager s1) (snd (Tasks.deleteTask (taskManager s1) taskId))
              (activeListeners s1) (flags s1) (loops s1) (listenNotifications s1)
              (sendAttempts s1)).
  { unfold deleteTask. rewrite Ht, Hty. destruct (Tasks.deleteTask _ _). reflexivity. }
  assert (Hfs : flag_set (stopFlag l) (snd (deleteTask s taskId))).
  { rewrite Hd. unfold flag_set, stopListenTask. rewrite Hl. cbn.
    rewrite set_true_length. split; [exact Hlen|apply set_true_at; exact Hlen]. }
  split; [|split; [exact (proj2 Hfs)|]].
  - rewrite Hd. unfold stopListenTask. rewrite Hl. cbn.
    clear. induction (activeListeners s) as [|[k v] m IH]; cbn; [reflexivity|].
    destruct (String.eqb_spec taskId k); [exact IH|]. cbn.
    apply String.eqb_neq in n. rewrite n. exact IH.
  - intros ops. apply flag_set_run. exact Hfs.
Qed.

Lemma deleteTask_stops_listener_witness :
  Tasks.getTask (taskManager s1) "L" = Some listenL /\
  JsMap.get (activeListeners s1) "L" = Some (mkListener 0 "1555") /\
  tagged 0 (listenNotifications
              (run true (fun _ => true) (fun _ => true) (fun _ => None)
                 (snd (deleteTask s1 "L")) [OpCycle 0 (Some [101; 100])]))
    = tagged 0 (listenNotifications (snd (deleteTask s1 "L"))).
Proof.
  split; [vm_compute; reflexivity|]. split; [vm_compute; reflexivity|].
  apply (proj2 (proj2 (deleteTask_stops_listener true (fun _ => true) (fun _ => true)
                         (fun _ => None) s1 "L" listenL (mkListener 0 "1555")
                         ltac:(vm_compute; reflexivity) eq_refl
                         ltac:(vm_compute; reflexivity) ltac:(vm_compute; lia)))).
Defined.
End ServiceClaims.

(** ** Loading, the session cache and queries of the account registry *)
Module AccountsMoreFacts.
Import Accounts AccountsInv AccountsMore JsMapFacts AccountsInvFacts.

Lemma In_keys_set {V} (m : JsMap.t V) k v x : In x (JsMap.keys m) -> In x (JsMap.keys (JsMap.set m k v)).
Proof.
  induction m as [|[k' v'] m IH]; cbn; [tauto|].
  destruct (String.eqb k k'); cbn; tauto.
Qed.

Lemma In_keys_delete {V} (m : JsMap.t V) k x :
  In x (JsMap.keys m) -> x <> k -> In x (JsMap.keys (JsMap.delete m k)).
Proof.
  intros H Hne. rewrite keys_delete. apply filter_In. split; [exact H|].
  destruct (String.eqb_spec k x); [congruence|reflexivity].
Qed.

Lemma keys_map_snd {V} (f : V -> V) (m : JsMap.t V) :
  JsMap.keys (map (fun p => (fst p, f (snd p))) m) = JsMap.keys m.
Proof. unfold JsMap.keys. rewrite map_map. reflexivity. Qed.

(** The last snapshot written is the registry as it stands. *)
Definition writes_ok (m : manager) : Prop :=
  match accountsFileWrites m with
  | [] => accounts m = []
  | w :: _ => w = JsMap.values (accounts m)
  end.

Definition good (m : manager) : Prop := inv m /\ sessions_ok m /\ writes_ok m.

Lemma getSession_shape m a :
  accounts (snd (getSession m a)) = accounts m /\
  activeAccountId (snd (getSession m a)) = activeAccountId m /\
  accountsFileWrites (snd (getSession m a)) = accountsFileWrites m /\
  (sessions_ok m -> sessions_ok (snd (getSession m a))).
Proof.
  unfold getSession.
  destruct (match a with Some a0 => if String.eqb a0 "" then activeAccountId m else Some a0
            | None => activeAccountId m end) as [k|]; [|cbn; tauto].
  destruct (String.eqb k ""); [cbn; tauto|].
  destruct (JsMap.has (accounts m) k) eqn:Hh; [|cbn; tauto]. cbn [negb].
  destruct (existsb (String.eqb k) (sessions m)) eqn:He; [cbn; tauto|].
  cbn. split; [reflexivity|split; [reflexivity|split; [reflexivity|]]].
  intros [HN HR]. split.
  - apply NoDup_app; [exact HN|constructor; [intros []|constructor]|].
    intros x Hx [<-|[]].
    assert (Ht : existsb (String.eqb k) (sessions m) = true)
      by (apply existsb_exists; exists k; split; [exact Hx|apply String.eqb_refl]).
    congruence.
  - intros x Hx. apply in_app_or in Hx. destruct Hx as [Hx|[<-|[]]]; [apply HR, Hx|exact Hh].
Qed.

Lemma health_shape probeOf l : forall res m,
  let r := fold_left (fun st account =>
               let '(result, m) := st in
               let '(s, m') := getSession m (Some (id account)) in
               match s with
               | Some k =>
                   match probeOf k with
                   | PHealth h => (result ++ [(account, h)], m')
                   | PTimeout => (result ++ [(account, timeoutHealth)], m')
                   | PThrow e => (result ++ [(account, mkHealth "error" false false (Some e))], m')
                   end
               | None => (result ++ [(account, mkHealth "unknown" false false None)], m')
               end) l (res, m) in
  accounts (snd r) = accounts m /\ activeAccountId (snd r) = activeAccountId m /\
  accountsFileWrites (snd r) = accountsFileWrites m /\
  (sessions_ok m -> sessions_ok (snd r)).
Proof.
  induction l as [|acc l IH]; intros res m; cbn [fold_left]; [cbn; tauto|].
  destruct (getSession_shape m (Some (id acc))) as [H1 [H2 [H3 H4]]].
  destruct (getSession m (Some (id acc))) as [[k|] m'] eqn:Hg; cbn [snd] in *;
    [destruct (probeOf k)|];
    (edestruct IH as [G1 [G2 [G3 G4]]]; split; [rewrite G1; exact H1|split;
      [rewrite G2; exact H2|split; [rewrite G3; exact H3|intros Hs; apply G4, H4, Hs]]]).
Qed.

Lemma inv_update m k n : inv m -> inv (snd (updateAccount m k n)).
Proof.
  intros [[HF HN] Hact]. unfold updateAccount.
  destruct (JsMap.get (accounts m) k) as [acc|] eqn:Hg; [|split; [split|]; auto].
  cbn [snd]. set (acc' := match n with Some n0 => set_name acc n0 | None => acc end).
  assert (Hid : id acc' = id acc /\ active acc' = active acc) by (subst acc'; destruct n; auto).
  assert (Hk : id acc = k).
  { apply get_In in Hg. rewrite Forall_forall in HF. apply (HF _ Hg). }
  assert (Hs : forall (l : JsMap.t account), JsMap.get l k = Some acc ->
            map fst (filter (fun p => active (snd p)) (JsMap.set l k acc'))
            = map fst (filter (fun p => active (snd p)) l) /\
            (Forall (fun p => id (snd p) = fst p) l ->
             Forall (fun p => id (snd p) = fst p) (JsMap.set l k acc'))).
  { induction l as [|[k0 v0] l IH]; cbn; [discriminate|].
    destruct (String.eqb_spec k k0).
    - intros [= ->]. subst k0. cbn. rewrite (proj2 Hid).
      split; [destruct (active acc); reflexivity|]. intros HFl. inversion HFl; subst. constructor; [cbn; rewrite (proj1 Hid); auto|auto].
    - intros Hg'. destruct (IH Hg') as [IH1 IH2]. cbn. split.
      + destruct (active v0); cbn; [f_equal|]; exact IH1.
      + intros HFl. inversion HFl; subst. constructor; auto. }
  destruct (Hs _ Hg) as [Hs1 Hs2].
  split; [split|].
  - rewrite accounts_save. apply Hs2, HF.
  - rewrite accounts_save, keys_set_old by (eapply AccountsClaims.get_has_true; exact Hg). exact HN.
  - destruct Hact as [[Hnil _]|[a [Ha Hb]]]; [rewrite Hnil in Hg; discriminate|].
    right. exists a. unfold active_ids in *. rewrite accounts_save, active_save, Hs1.
    split; [exact Ha|exact Hb].
Qed.

Lemma sessions_grow m m' :
  sessions m' = sessions m ->
  (forall x, In x (JsMap.keys (accounts m)) -> In x (JsMap.keys (accounts m'))) ->
  sessions_ok m -> sessions_ok m'.
Proof.
  intros Hs Hk [HN HR]. split; rewrite Hs; [exact HN|].
  intros x Hx. apply has_In, Hk, has_In, HR, Hx.
Qed.

Lemma good_add m ph nm now : good m -> good (snd (addAccount m ph nm now)).
Proof.
  intros [Hi [Hs Hw]]. split; [apply inv_add, Hi|].
  unfold addAccount. destruct (JsMap.has (accounts m) (makeAccountId ph)); [split; auto|].
  cbn [snd]. split; [|reflexivity].
  apply (sessions_grow m); [reflexivity| |exact Hs]. intros x; apply In_keys_set.
Qed.

Lemma good_remove m k : good m -> good (snd (removeAccount m k)).
Proof.
  intros [Hi [Hs Hw]]. split; [apply inv_remove, Hi|].
  unfold removeAccount. destruct (JsMap.get (accounts m) k) as [acc|]; [|split; auto].
  cbn [snd accounts activeAccountId sessions].
  set (m2 := match activeAccountId m with
             | Some a => if String.eqb a k then
                           match JsMap.delete (accounts m) k with
                           | [] => _ | _ => _ end else _
             | None => _ end).
  split; [|reflexivity].
  destruct Hs as [HN HR].
  assert (Hk : forall x, In x (JsMap.keys (JsMap.delete (accounts m) k)) ->
                         In x (JsMap.keys (accounts (saveAccounts m2)))).
  { intros x Hx. subst m2.
    destruct (activeAccountId m) as [a|]; [destruct (String.eqb a k)|];
      cbn [saveAccounts with_accounts accounts]; try exact Hx.
    destruct (JsMap.delete (accounts m) k) as [|[k0 f] r];
      cbn [saveAccounts with_accounts accounts]; [exact Hx|].
    apply In_keys_set, Hx. }
  assert (Hses : sessions (saveAccounts m2) = filter (fun x => negb (String.eqb x k)) (sessions m)).
  { subst m2. destruct (activeAccountId m) as [a|]; [destruct (String.eqb a k)|]; cbn; try reflexivity.
    destruct (JsMap.delete (accounts m) k) as [|[k0 f] r]; reflexivity. }
  split; rewrite Hses; [apply NoDup_filter, HN|].
  intros x Hx. apply filter_In in Hx. destruct Hx as [Hx Hne].
  apply has_In, Hk, In_keys_delete; [apply has_In, HR, Hx|].
  intros ->. rewrite String.eqb_refl in Hne. discriminate.
Qed.

Lemma good_switch m k : good m -> good (snd (switchAccount m k)).
Proof.
  intros [Hi [Hs Hw]]. split; [apply inv_switch, Hi|].
  destruct (switchAccount m k) as [[|] m'] eqn:Hsw; cbn [snd]; [|unfold switchAccount in Hsw;
    destruct (JsMap.has (accounts m) k); cbn in Hsw; [discriminate|injection Hsw as <-; split; auto]].
  destruct (switch_shape _ _ _ Hsw) as [_ [acc [_ [Ha _]]]].
  unfold switchAccount in Hsw. destruct (JsMap.has (accounts m) k); cbn in Hsw; [|discriminate].
  injection Hsw as Hm'. split.
  - apply (sessions_grow m); [rewrite <- Hm'; reflexivity| |exact Hs].
    intros x Hx. rewrite Ha. apply In_keys_set. rewrite keys_clear. exact Hx.
  - unfold writes_ok. rewrite <- Hm'. reflexivity.
Qed.

Lemma good_update m k n : good m -> good (snd (updateAccount m k n)).
Proof.
  intros [Hi [Hs Hw]]. split; [apply inv_update, Hi|].
  unfold updateAccount. destruct (JsMap.get (accounts m) k) eqn:Hg; [|split; auto].
  cbn [snd]. split; [|reflexivity].
  apply (sessions_grow m); [reflexivity| |exact Hs]. intros x; apply In_keys_set.
Qed.

Lemma good_getSession m a : good m -> good (snd (getSession m a)).
Proof.
  intros [Hi [Hs Hw]]. destruct (getSession_shape m a) as [H1 [H2 [H3 H4]]].
  split; [|split; [apply H4, Hs|unfold writes_ok in *; rewrite H3, H1; exact Hw]].
  destruct Hi as [[HF HN] Hact]. unfold inv, keys_ok, active_ids. rewrite H1, H2. auto.
Qed.

Lemma good_health m p : good m -> good (snd (getAllAccountsHealth p m)).
Proof.
  intros [Hi [Hs Hw]]. unfold getAllAccountsHealth.
  destruct (health_shape p (JsMap.values (accounts m)) [] m) as [H1 [H2 [H3 H4]]].
  split; [|split; [apply H4, Hs|unfold writes_ok in *; rewrite H3, H1; exact Hw]].
  destruct Hi as [[HF HN] Hact]. unfold inv, keys_ok, active_ids. rewrite H1, H2. auto.
Qed.

Lemma good_step m o : good m -> good (step m o).
Proof.
  destruct o as [[ph nm now|k|k]|a|k n|p]; cbn [step AccountsInv.step];
    [apply good_add|apply good_remove|apply good_switch|apply good_getSession|apply good_update
    |apply good_health].
Qed.

Lemma good_run ops : forall m, good m -> good (run m ops).
Proof.
  induction ops as [|o ops IH]; intros m H; [exact H|]. unfold run in *. cbn [fold_left].
  apply IH, good_step, H.
Qed.

Lemma good_empty : good empty_manager.
Proof. split; [apply inv_empty|split; [split; [constructor|intros k []]|reflexivity]]. Qed.

Lemma loadList_accounts l : forall m pre,
  accounts m = pre -> Forall (fun p => id (snd p) = fst p) l ->
  NoDup (JsMap.keys (pre ++ l)) ->
  accounts (loadList m (map snd l)) = pre ++ l.
Proof.
  induction l as [|[k a] l IH]; intros m pre Hm HF HN; cbn; [rewrite app_nil_r; exact Hm|].
  inversion HF as [|? ? Hka HF']; subst x l0. cbn in Hka.
  unfold loadList in IH. transitivity ((pre ++ [(k, a)]) ++ l); [|rewrite <- app_assoc; reflexivity].
  apply IH; [|exact HF'|rewrite <- app_assoc; exact HN].
  cbn [with_accounts accounts]. rewrite Hka, Hm, set_new; [reflexivity|].
  destruct (JsMap.has pre k) eqn:Hh; [|reflexivity]. exfalso.
  apply has_In in Hh. rewrite keys_app in HN. cbn in HN.
  apply NoDup_remove_2 in HN. apply HN, in_or_app. left; exact Hh.
Qed.

Lemma loadList_active l : forall m,
  activeAccountId (loadList m l) =
  match rev (map id (filter active l)) with [] => activeAccountId m | a :: _ => Some a end.
Proof.
  induction l as [|a l IH]; intros m; [reflexivity|]. unfold loadList in *. cbn [fold_left].
  rewrite IH. cbn [filter]. destruct (active a); cbn [map rev with_accounts activeAccountId];
    destruct (rev (map id (filter active l))); reflexivity.
Qed.

Lemma filter_active_ids (l : JsMap.t account) :
  Forall (fun p => id (snd p) = fst p) l ->
  map id (filter active (map snd l)) = map fst (filter (fun p => active (snd p)) l).
Proof.
  induction 1 as [|[k a] l Hk _ IH]; [reflexivity|]. cbn in *.
  destruct (active a); cbn; [rewrite Hk, IH|]; auto.
Qed.

Lemma keys_of_ids (l : list account) : JsMap.keys (map (fun a => (id a, a)) l) = map id l.
Proof. unfold JsMap.keys. rewrite map_map. reflexivity. Qed.

Lemma ids_forall (l : list account) : Forall (fun p => id (snd p) = fst p) (map (fun a => (id a, a)) l).
Proof. induction l; constructor; auto. Qed.

Lemma get_NoDup_In {V} (l : JsMap.t V) k v : NoDup (JsMap.keys l) -> In (k, v) l -> JsMap.get l k = Some v.
Proof.
  induction l as [|[k' v'] l IH]; cbn; [intros _ []|].
  intros HN [Hkv|Hin]; inversion HN as [|? ? Hnin HN']; subst.
  - injection Hkv as -> ->. rewrite String.eqb_refl. reflexivity.
  - destruct (String.eqb_spec k k'); [subst|auto].
    exfalso. apply Hnin. change k' with (fst (k', v)). apply in_map, Hin.
Qed.

Lemma getSession_registered m k :
  k <> "" -> JsMap.has (accounts m) k = true -> fst (getSession m (Some k)) = Some k.
Proof.
  intros Hne Hh. unfold getSession. apply String.eqb_neq in Hne. rewrite Hne, Hne, Hh. cbn.
  destruct (existsb (String.eqb k) (sessions m)); reflexivity.
Qed.

Lemma getSession_never_empty m a : fst (getSession m a) <> Some "".
Proof.
  unfold getSession.
  destruct (match a with Some a0 => if String.eqb a0 "" then activeAccountId m else Some a0
            | None => activeAccountId m end) as [k|]; [|discriminate].
  destruct (String.eqb_spec k ""); [discriminate|].
  destruct (negb (JsMap.has (accounts m) k)); [discriminate|].
  destruct (existsb (String.eqb k) (sessions m)); cbn; congruence.
Qed.

Lemma makeAccountId_no_digit (ph : string) :
  forallb (fun c => negb (is_digit c)) (list_ascii_of_string ph) = true -> makeAccountId ph = "".
Proof.
  induction ph as [|c ph IH]; cbn; [reflexivity|].
  destruct (is_digit c); cbn; [discriminate|exact IH].
Qed.

Lemma load_go_retry m outcome n l : forall fuel attempt,
  (attempt + fuel = 6)%nat -> (1 <= attempt <= n)%nat -> (n <= 5)%nat ->
  (forall k, (attempt <= k < n)%nat -> outcome k = FMissing \/ outcome k = FUnreadable) ->
  outcome n = FParsed (Some l) -> load_go fuel attempt outcome m = loadList m l.
Proof.
  induction fuel as [|fuel IH]; intros attempt Hf Ha Hn Hk Ho; [lia|]. cbn [load_go].
  destruct (Nat.eq_dec attempt n) as [->|Hne]; [rewrite Ho; reflexivity|].
  assert (Hlt : (attempt <? maxAttempts)%nat = true) by (unfold maxAttempts; apply Nat.ltb_lt; lia).
  destruct (Hk attempt ltac:(lia)) as [E|E]; rewrite E, Hlt;
    (apply IH; [lia|lia|lia|intros k Hk'; apply Hk; lia|exact Ho]).
Qed.
End AccountsMoreFacts.

(** ** Properties of the registry beyond the specification's claims *)
Module AccountsExtras.
Import Accounts AccountsInv AccountsMore JsMapFacts AccountsInvFacts AccountsMoreFacts.

(** The accounts file as [saveAccounts] last wrote it, read back by
    [loadAccounts] into a new manager, gives the same accounts in the same
    order and the same active account, in every registry reachable by
    [addAccount], [removeAccount], [switchAccount], [updateAccount],
    [getSession] and [getAllAccountsHealth]. *)
Theorem loadAccounts_reads_back_saved ops w ws outcome :
  accountsFileWrites (run empty_manager ops) = w :: ws ->
  outcome 1%nat = FParsed (Some w) ->
  accounts (loadAccounts empty_manager outcome) = accounts (run empty_manager ops) /\
  activeAccountId (loadAccounts empty_manager outcome) = activeAccountId (run empty_manager ops).
Proof.
  intros Hw Ho. destruct (good_run ops empty_manager good_empty) as [[[HF HN] Hact] [_ Hwr]].
  unfold writes_ok in Hwr. rewrite Hw in Hwr. subst w.
  unfold loadAccounts, maxAttempts. cbn [load_go]. rewrite Ho.
  unfold JsMap.values. split.
  - apply (loadList_accounts _ empty_manager []); [reflexivity|exact HF|exact HN].
  - rewrite loadList_active, filter_active_ids by exact HF.
    destruct Hact as [[-> ->]|[a [Ha ->]]]; [reflexivity|].
    unfold active_ids in Ha. rewrite Ha. reflexivity.
Qed.

Lemma loadAccounts_reads_back_saved_witness :
  accountsFileWrites (run empty_manager [OpReg (OpAdd "+1555" None "t0"); OpReg (OpAdd "+1666" None "t1");
                                         OpReg (OpSwitch "1666")])
  = [JsMap.values (accounts (run empty_manager [OpReg (OpAdd "+1555" None "t0");
        OpReg (OpAdd "+1666" None "t1"); OpReg (OpSwitch "1666")]))] ++
    tl (accountsFileWrites (run empty_manager [OpReg (OpAdd "+1555" None "t0");
        OpReg (OpAdd "+1666" None "t1"); OpReg (OpSwitch "1666")])) /\
  activeAccountId (loadAccounts empty_manager
    (fun _ => FParsed (Some (JsMap.values (accounts (run empty_manager
       [OpReg (OpAdd "+1555" None "t0"); OpReg (OpAdd "+1666" None "t1"); OpReg (OpSwitch "1666")]))))))
  = Some "1666".
Proof.
  split; [vm_compute; reflexivity|].
  rewrite (proj2 (loadAccounts_reads_back_saved
    [OpReg (OpAdd "+1555" None "t0"); OpReg (OpAdd "+1666" None "t1"); OpReg (OpSwitch "1666")]
    (JsMap.values (accounts (run empty_manager
       [OpReg (OpAdd "+1555" None "t0"); OpReg (OpAdd "+1666" None "t1"); OpReg (OpSwitch "1666")])))
    (tl (accountsFileWrites (run empty_manager
       [OpReg (OpAdd "+1555" None "t0"); OpReg (OpAdd "+1666" None "t1"); OpReg (OpSwitch "1666")])))
    _ ltac:(vm_compute; reflexivity) eq_refl)).
  vm_compute. reflexivity.
Defined.

(** [loadAccounts] does not repair a file that flags several accounts as
    active: loaded into an empty registry, every account of the file keeps
    its [active] flag, and [activeAccountId] is the id of the last active
    account of the file (unchanged when none is active). *)
Theorem loadAccounts_keeps_every_active_flag m l outcome :
  accounts m = [] -> NoDup (map id l) -> outcome 1%nat = FParsed (Some l) ->
  active_ids (loadAccounts m outcome) = map id (filter active l) /\
  activeAccountId (loadAccounts m outcome) =
    match rev (map id (filter active l)) with [] => activeAccountId m | a :: _ => Some a end.
Proof.
  intros Hm HN Ho. unfold loadAccounts, maxAttempts. cbn [load_go]. rewrite Ho.
  split; [|apply loadList_active].
  assert (Hl : l = map snd (map (fun a => (id a, a)) l)) by (rewrite map_map; symmetry; apply map_id).
  unfold active_ids. rewrite Hl at 1.
  rewrite (loadList_accounts _ m []); [|exact Hm|apply ids_forall|cbn [app]; rewrite keys_of_ids; exact HN].
  cbn [app]. rewrite <- filter_active_ids by apply ids_forall. rewrite <- Hl. reflexivity.
Qed.

Lemma loadAccounts_keeps_every_active_flag_witness :
  active_ids (loadAccounts empty_manager
    (fun _ => FParsed (Some [mkAccount "1555" "+1555" "a" true "s1" "t0";
                             mkAccount "1666" "+1666" "b" true "s2" "t1"]))) = ["1555"; "1666"] /\
  activeAccountId (loadAccounts empty_manager
    (fun _ => FParsed (Some [mkAccount "1555" "+1555" "a" true "s1" "t0";
                             mkAccount "1666" "+1666" "b" true "s2" "t1"]))) = Some "1666".
Proof.
  exact (loadAccounts_keeps_every_active_flag empty_manager
           [mkAccount "1555" "+1555" "a" true "s1" "t0"; mkAccount "1666" "+1666" "b" true "s2" "t1"]
           _ eq_refl ltac:(vm_compute; repeat constructor; cbn; intuition discriminate) eq_refl).
Defined.

(** [loadAccounts] writes the accounts file (with ['[]']) only when the
    first four attempts found no file or an unreadable one and the fifth
    found no file; otherwise it writes nothing, so it never overwrites a
    file it could read. *)
Theorem loadAccounts_creates_file_only_when_missing m outcome :
  (accountsFileWrites (loadAccounts m outcome) = accountsFileWrites m \/
   accountsFileWrites (loadAccounts m outcome) = [] :: accountsFileWrites m) /\
  (accountsFileWrites (loadAccounts m outcome) = [] :: accountsFileWrites m <->
   (forall n, (1 <= n <= 4)%nat -> outcome n = FMissing \/ outcome n = FUnreadable) /\
   outcome 5%nat = FMissing).
Proof.
  assert (Hne : forall l : list (list account), l <> [] :: l)
    by (intros l H; apply (f_equal (@List.length _)) in H; cbn in H; lia).
  assert (HL : forall l, accountsFileWrites (loadList m l) = accountsFileWrites m).
  { intros l. unfold loadList. generalize m. induction l as [|a l IH]; intros m0; [reflexivity|].
    cbn [fold_left]. rewrite IH. reflexivity. }
  unfold loadAccounts, maxAttempts. cbn [load_go]. unfold maxAttempts. cbn [Nat.ltb Nat.leb].
  destruct (outcome 1%nat) as [| |[l1|]] eqn:E1;
  try (rewrite ?HL; split; [left; reflexivity|split; [intros H; exfalso; eapply Hne; exact H|
        intros [H _]; destruct (H 1%nat ltac:(lia)); congruence]]);
  destruct (outcome 2%nat) as [| |[l2|]] eqn:E2;
  try (rewrite ?HL; split; [left; reflexivity|split; [intros H; exfalso; eapply Hne; exact H|
        intros [H _]; destruct (H 2%nat ltac:(lia)); congruence]]);
  destruct (outcome 3%nat) as [| |[l3|]] eqn:E3;
  try (rewrite ?HL; split; [left; reflexivity|split; [intros H; exfalso; eapply Hne; exact H|
        intros [H _]; destruct (H 3%nat ltac:(lia)); congruence]]);
  destruct (outcome 4%nat) as [| |[l4|]] eqn:E4;
  try (rewrite ?HL; split; [left; reflexivity|split; [intros H; exfalso; eapply Hne; exact H|
        intros [H _]; destruct (H 4%nat ltac:(lia)); congruence]]);
  destruct (outcome 5%nat) as [| |[l5|]] eqn:E5;
  try (rewrite ?HL; split; [left; reflexivity|split; [intros H; exfalso; eapply Hne; exact H|
        intros [_ H]; congruence]]);
  cbn; (split; [right; reflexivity|split; [intros _; split; [|reflexivity]|reflexivity]]);
  intros n Hn; (assert (n = 1 \/ n = 2 \/ n = 3 \/ n = 4)%nat as [-> | [-> | [-> | ->]]] by lia); auto.
Qed.

(** [loadAccounts] retries: if attempts before [n] found no file or an
    unreadable one and attempt [n] (at most the fifth) reads an array,
    exactly that array is loaded. *)
Theorem loadAccounts_retries_until_readable m outcome n l :
  (1 <= n <= 5)%nat ->
  (forall k, (1 <= k < n)%nat -> outcome k = FMissing \/ outcome k = FUnreadable) ->
  outcome n = FParsed (Some l) ->
  loadAccounts m outcome = loadList m l.
Proof.
  intros Hn Hk Ho. unfold loadAccounts. apply (load_go_retry m outcome n l); auto; unfold maxAttempts; lia.
Qed.

Lemma loadAccounts_retries_until_readable_witness :
  loadAccounts empty_manager
    (fun k => match k with 1 | 2 => FMissing | 3 => FUnreadable
              | _ => FParsed (Some [mkAccount "1555" "+1555" "a" true "s1" "t0"]) end)
  = loadList empty_manager [mkAccount "1555" "+1555" "a" true "s1" "t0"].
Proof.
  apply (loadAccounts_retries_until_readable _ _ 4); [lia| |reflexivity].
  intros k Hk. assert (k = 1 \/ k = 2 \/ k = 3)%nat as [-> | [-> | ->]] by lia; auto.
Defined.

(** [getSession(accountId)] resolves a missing or empty [accountId] to
    [activeAccountId], returns a session only for a registered, non-empty
    id, creates it at most once (the cache gains that id only if it was
    absent), and a repeated call returns the same session without
    changing anything. *)
Theorem getSession_caches m a k m' :
  getSession m a = (Some k, m') ->
  Service.js_or a (activeAccountId m) = Some k /\ k <> "" /\
  JsMap.has (accounts m) k = true /\ accounts m' = accounts m /\
  (sessions m' = sessions m \/ (sessions m' = sessions m ++ [k] /\ ~ In k (sessions m))) /\
  In k (sessions m') /\ getSession m' a = (Some k, m').
Proof.
  unfold getSession at 1.
  assert (Hr : Service.js_or a (activeAccountId m) =
               match a with Some a0 => if String.eqb a0 "" then activeAccountId m else Some a0
               | None => activeAccountId m end)
    by (destruct a as [a0|]; [unfold Service.js_or, Service.truthy; destruct (String.eqb a0 "")|]; reflexivity).
  rewrite <- Hr.
  destruct (Service.js_or a (activeAccountId m)) as [k0|] eqn:Ek; [|discriminate].
  destruct (String.eqb_spec k0 ""); [discriminate|].
  destruct (JsMap.has (accounts m) k0) eqn:Hh; [|discriminate]. cbn [negb].
  destruct (existsb (String.eqb k0) (sessions m)) eqn:He.
  - intros [= <- <-]. apply existsb_exists in He. destruct He as [x [Hx Hxe]].
    apply String.eqb_eq in Hxe. subst x.
    repeat split; auto. unfold getSession. rewrite <- Hr.
    destruct (String.eqb_spec k0 ""); [congruence|]. rewrite Hh. cbn [negb].
    assert (He' : existsb (String.eqb k0) (sessions m) = true)
      by (apply existsb_exists; exists k0; split; [exact Hx|apply String.eqb_refl]).
    rewrite He'. reflexivity.
  - intros [= <- <-].
    assert (Hnin : ~ In k0 (sessions m)).
    { intros Hin. assert (existsb (String.eqb k0) (sessions m) = true)
        by (apply existsb_exists; exists k0; split; [exact Hin|apply String.eqb_refl]). congruence. }
    split; [reflexivity|split; [exact n|split; [exact Hh|split; [reflexivity|split]]]].
    + right. split; [reflexivity|exact Hnin].
    + split; [apply in_or_app; right; left; reflexivity|].
      unfold getSession. cbn [accounts sessions activeAccountId]. rewrite <- Hr.
      destruct (String.eqb_spec k0 ""); [congruence|]. rewrite Hh. cbn [negb].
      assert (He' : existsb (String.eqb k0) (sessions m ++ [k0]) = true).
      { apply existsb_exists. exists k0. split; [apply in_or_app; right; left; reflexivity|apply String.eqb_refl]. }
      rewrite He'. reflexivity.
Qed.

Lemma getSession_caches_witness :
  getSession (snd (addAccount empty_manager "+1555" None "t0")) None
  = (Some "1555", snd (getSession (snd (addAccount empty_manager "+1555" None "t0")) None)) /\
  getSession (snd (getSession (snd (addAccount empty_manager "+1555" None "t0")) None)) None
  = (Some "1555", snd (getSession (snd (addAccount empty_manager "+1555" None "t0")) None)).
Proof.
  split; [vm_compute; reflexivity|].
  exact (proj2 (proj2 (proj2 (proj2 (proj2 (proj2 (getSession_caches
           (snd (addAccount empty_manager "+1555" None "t0")) None "1555"
           (snd (getSession (snd (addAccount empty_manager "+1555" None "t0")) None))
           ltac:(vm_compute; reflexivity)))))))).
Defined.

(** The session cache never holds a session twice and only holds
    sessions of registered accounts: [removeAccount] drops the cached
    session of the account it removes.  This holds in every registry
    reachable by [addAccount], [removeAccount], [switchAccount],
    [updateAccount], [getSession] and [getAllAccountsHealth]. *)
Theorem session_cache_only_registered ops : sessions_ok (run empty_manager ops).
Proof. apply (good_run ops empty_manager good_empty). Qed.

(** In every reachable registry, [getActiveAccount()] returns null exactly
    when there is no account or the active id is the empty string (the
    id of an account whose phone has no digit); otherwise it returns the
    account flagged active, the only one. *)
Theorem getActiveAccount_reachable ops :
  (getActiveAccount (run empty_manager ops) = None <->
   accounts (run empty_manager ops) = [] \/ activeAccountId (run empty_manager ops) = Some "") /\
  (forall acc, getActiveAccount (run empty_manager ops) = Some acc ->
   active acc = true /\ activeAccountId (run empty_manager ops) = Some (id acc) /\
   active_ids (run empty_manager ops) = [id acc]).
Proof.
  destruct (good_run ops empty_manager good_empty) as [[[HF HN] Hact] _].
  set (m := run empty_manager ops) in *. unfold getActiveAccount.
  destruct Hact as [[Hnil ->]|[a [Ha ->]]].
  - split; [split; auto|intros acc H; discriminate].
  - assert (Hin : exists v, In (a, v) (accounts m) /\ active v = true).
    { assert (In a (active_ids m)) by (rewrite Ha; left; reflexivity).
      unfold active_ids in H. apply in_map_iff in H. destruct H as [[k v] [Hk Hv]].
      apply filter_In in Hv. cbn in *. subst k. exists v. tauto. }
    destruct Hin as [v [Hv Hav]].
    assert (Hg : JsMap.get (accounts m) a = Some v) by (apply get_NoDup_In; auto).
    assert (Hid : id v = a) by (rewrite Forall_forall in HF; apply (HF _ Hv)).
    destruct (String.eqb_spec a "") as [->|Hne].
    + split; [split; auto|intros acc H; discriminate].
    + rewrite Hg. split.
      * split; [discriminate|intros [Hnil|H]; [rewrite Hnil in Hv; destruct Hv|congruence]].
      * intros acc [= <-]. rewrite Hid. auto.
Qed.

(** An account added with a phone that has no digit gets the id [""];
    no call of [getSession] ever returns a session for it, and when it is
    the first account (so the active one), [getActiveAccount()] still
    returns null. *)
Theorem addAccount_digit_free_phone m ph nm now acc m' :
  addAccount m ph nm now = (inr acc, m') ->
  forallb (fun c => negb (is_digit c)) (list_ascii_of_string ph) = true ->
  id acc = "" /\ (forall m'' a, fst (getSession m'' a) <> Some (id acc)) /\
  (active acc = true -> getActiveAccount m' = None).
Proof.
  intros Ha Hd. pose proof (makeAccountId_no_digit ph Hd) as Hid.
  unfold addAccount in Ha. rewrite Hid in Ha.
  destruct (JsMap.has (accounts m) ""); [discriminate|]. injection Ha as <- <-.
  cbn [id active]. split; [reflexivity|split; [intros; apply getSession_never_empty|]].
  intros Hact. unfold getActiveAccount. cbn. rewrite Hact. reflexivity.
Qed.

Lemma addAccount_digit_free_phone_witness :
  addAccount empty_manager "abc" None "t0"
  = (inr (mkAccount "" "abc" "abc" true "./data/telegram-session-.txt" "t0"),
     snd (addAccount empty_manager "abc" None "t0")) /\
  getActiveAccount (snd (addAccount empty_manager "abc" None "t0")) = None.
Proof.
  split; [vm_compute; reflexivity|].
  apply (proj2 (proj2 (addAccount_digit_free_phone empty_manager "abc" None "t0"
     (mkAccount "" "abc" "abc" true "./data/telegram-session-.txt" "t0")
     (snd (addAccount empty_manager "abc" None "t0")) ltac:(vm_compute; reflexivity) eq_refl))).
  reflexivity.
Defined.

(** With every account stored under its own non-empty id,
    [getAllAccountsHealth()] reports each account once, in map order, with
    the outcome of its own session's health check (the timeout or error
    placeholder when it timed out or threw), never the 'unknown' entry;
    afterwards every account has a cached session. *)
Theorem getAllAccountsHealth_probes_each probeOf m :
  keys_ok m -> (forall k, In k (JsMap.keys (accounts m)) -> k <> "") ->
  fst (getAllAccountsHealth probeOf m)
    = map (fun acc => (acc, probeHealth (probeOf (id acc)))) (getAllAccounts m) /\
  forall k, In k (JsMap.keys (accounts m)) -> In k (sessions (snd (getAllAccountsHealth probeOf m))).
Proof.
  intros [HF _] Hne. unfold getAllAccountsHealth, getAllAccounts, JsMap.values.
  assert (Hgen : forall l res m0,
    accounts m0 = accounts m ->
    Forall (fun p => id (snd p) = fst p) l -> (forall k, In k (JsMap.keys l) -> In k (JsMap.keys (accounts m))) ->
    let r := fold_left (fun st account =>
               let '(result, m) := st in
               let '(s, m') := getSession m (Some (id account)) in
               match s with
               | Some k =>
                   match probeOf k with
                   | PHealth h => (result ++ [(account, h)], m')
                   | PTimeout => (result ++ [(account, timeoutHealth)], m')
                   | PThrow e => (result ++ [(account, mkHealth "error" false false (Some e))], m')
                   end
               | None => (result ++ [(account, mkHealth "unknown" false false None)], m')
               end) (map snd l) (res, m0) in
    fst r = res ++ map (fun acc => (acc, probeHealth (probeOf (id acc)))) (map snd l) /\
    (forall k, In k (sessions m0) \/ In k (JsMap.keys l) -> In k (sessions (snd r)))).
  { induction l as [|[k0 a] l IH]; intros res m0 Hm0 HFl Hsub; cbn [map fold_left].
    - split; [rewrite app_nil_r; reflexivity|intros k [Hk|[]]; exact Hk].
    - inversion HFl as [|? ? Hk0 HFl']; subst x l0. cbn in Hk0. change (snd (k0, a)) with a.
      assert (Hk0in : In k0 (JsMap.keys (accounts m))) by (apply Hsub; left; reflexivity).
      assert (Hg : fst (getSession m0 (Some (id a))) = Some (id a)).
      { apply getSession_registered; rewrite Hk0; [apply Hne, Hk0in|rewrite Hm0; apply has_In, Hk0in]. }
      destruct (getSession_caches m0 (Some (id a)) (id a) (snd (getSession m0 (Some (id a)))))
        as [_ [_ [_ [Hacc [Hses [Hin _]]]]]];
        [destruct (getSession m0 (Some (id a))); cbn in Hg; subst; reflexivity|].
      destruct (getSession m0 (Some (id a))) as [s m1] eqn:Egs. cbn in Hg, Hacc, Hses, Hin. subst s.
      assert (Hm1 : accounts m1 = accounts m) by congruence.
      assert (Hsub' : forall k, In k (JsMap.keys l) -> In k (JsMap.keys (accounts m)))
        by (intros k Hk; apply Hsub; right; exact Hk).
      destruct (probeOf (id a)) eqn:Ep;
        (match goal with |- context [fold_left _ _ (?r, m1)] => destruct (IH r m1 Hm1 HFl' Hsub') as [IH1 IH2] end; split;
         [rewrite IH1, <- app_assoc; reflexivity|]);
        (intros k [Hk|[Hk|Hk]]; apply IH2;
         [left; destruct Hses as [-> | [-> _]]; [exact Hk|apply in_or_app; left; exact Hk]
         |left; subst k; rewrite <- Hk0; exact Hin
         |right; exact Hk]). }
  destruct (Hgen (accounts m) [] m eq_refl HF (fun k H => H)) as [H1 H2].
  split; [exact H1|intros k Hk; apply H2; right; exact Hk].
Qed.

Lemma getAllAccountsHealth_probes_each_witness :
  fst (getAllAccountsHealth (fun _ => PTimeout) (snd (addAccount empty_manager "+1555" None "t0")))
  = [(mkAccount "1555" "+1555" "+1555" true "./data/telegram-session-1555.txt" "t0", timeoutHealth)].
Proof.
  rewrite (proj1 (getAllAccountsHealth_probes_each (fun _ => PTimeout)
     (snd (addAccount empty_manager "+1555" None "t0"))
     ltac:(vm_compute; split; repeat constructor; intros [])
     ltac:(vm_compute; intros k [<- | []]; discriminate))).
  vm_compute. reflexivity.
Defined.
End AccountsExtras.

(** ** Scheduling, creating, updating and deleting tasks *)
Module TasksMoreFacts.
Import Tasks TasksMore JsMapFacts TaskClaims.

Section WithCron.
Variable cron_loaded : bool.
Variable validate : string -> bool.

Lemma scheduleTask_fresh tm t :
  JsMap.has (scheduled tm) (tid t) = false ->
  JsMap.keys (scheduled (scheduleTask cron_loaded validate tm t))
    = JsMap.keys (scheduled tm) ++ (if schedulable cron_loaded validate t then [tid t] else []) /\
  stoppedJobs (scheduleTask cron_loaded validate tm t) = stoppedJobs tm /\
  tasks (scheduleTask cron_loaded validate tm t) = tasks tm.
Proof.
  intros Hf. unfold scheduleTask, schedulable.
  destruct (enabled t); cbn [negb andb].
  - destruct (ttype t); cbn [andb].
    + destruct cron_loaded; cbn [negb andb]; [|rewrite app_nil_r; auto].
      destruct (validate (normalizeCron (cron t))); cbn [negb]; [|rewrite app_nil_r; auto].
      cbn [scheduled stoppedJobs tasks]. rewrite set_new by exact Hf. rewrite keys_app. auto.
    + rewrite app_nil_r. auto.
  - unfold unschedule. rewrite get_none by exact Hf. rewrite app_nil_r. auto.
Qed.

Lemma fold_scheduleTask_fresh l : forall tm,
  NoDup (map tid l) -> (forall x, In x (map tid l) -> ~ In x (JsMap.keys (scheduled tm))) ->
  JsMap.keys (scheduled (fold_left (scheduleTask cron_loaded validate) l tm))
    = JsMap.keys (scheduled tm) ++ map tid (filter (schedulable cron_loaded validate) l) /\
  stoppedJobs (fold_left (scheduleTask cron_loaded validate) l tm) = stoppedJobs tm /\
  tasks (fold_left (scheduleTask cron_loaded validate) l tm) = tasks tm.
Proof.
  induction l as [|t l IH]; intros tm HN Hd; cbn [fold_left map filter].
  - rewrite app_nil_r. auto.
  - inversion HN as [|? ? Hnin HN']; subst.
    assert (Hf : JsMap.has (scheduled tm) (tid t) = false).
    { destruct (JsMap.has (scheduled tm) (tid t)) eqn:E; [|reflexivity].
      exfalso. apply (Hd (tid t)); [left; reflexivity|apply has_In, E]. }
    destruct (scheduleTask_fresh tm t Hf) as [Hk [Hs Ht]].
    destruct (IH (scheduleTask cron_loaded validate tm t) HN') as [Hk' [Hs' Ht']].
    { intros x Hx. rewrite Hk. intros Hin. apply in_app_or in Hin as [Hin|Hin].
      - apply (Hd x); [right; exact Hx|exact Hin].
      - destruct (schedulable cron_loaded validate t); [|destruct Hin].
        destruct Hin as [<-|[]]. contradiction. }
    rewrite Hk', Hs', Ht', Hk, Hs, Ht, <- app_assoc.
    destruct (schedulable cron_loaded validate t); auto.
Qed.
End WithCron.

Lemma findIndex_nth l id idx :
  findIndex l id = Some idx -> exists t, nth_error l idx = Some t /\ tid t = id /\
    (forall i, (i < idx)%nat -> forall t', nth_error l i = Some t' -> tid t' <> id).
Proof.
  revert idx. induction l as [|t l IH]; intros idx; cbn; [discriminate|].
  destruct (String.eqb_spec (tid t) id).
  - intros [= <-]. exists t. split; [reflexivity|split; [exact e|intros i Hi; lia]].
  - destruct (findIndex l id) as [i|] eqn:Hi; cbn; [|discriminate].
    intros [= <-]. destruct (IH i eq_refl) as [t' [Hn [Ht Hb]]].
    exists t'. split; [exact Hn|split; [exact Ht|]].
    intros [|i'] Hi' t'' Hn'; cbn in Hn'; [injection Hn' as <-; exact n|].
    apply (Hb i'); [lia|exact Hn'].
Qed.

Lemma findIndex_None l id : ~ In id (map tid l) -> findIndex l id = None.
Proof.
  induction l as [|t l IH]; cbn; [reflexivity|].
  intros H. destruct (String.eqb_spec (tid t) id); [exfalso; apply H; left; exact e|].
  rewrite IH; [reflexivity|tauto].
Qed.

Lemma has_get_none {V} (m : JsMap.t V) k : JsMap.get m k = None -> JsMap.has m k = false.
Proof.
  induction m as [|[k' v'] m IH]; cbn; [reflexivity|].
  destruct (String.eqb k k'); [discriminate|exact IH].
Qed.

Lemma get_delete_other {V} (m : JsMap.t V) k k' :
  k' <> k -> JsMap.get (JsMap.delete m k) k' = JsMap.get m k'.
Proof.
  intros Hne. induction m as [|[k0 v0] m IH]; cbn; [reflexivity|].
  destruct (String.eqb_spec k k0) as [<-|]; cbn.
  - apply String.eqb_neq in Hne. rewrite Hne. exact IH.
  - rewrite IH. reflexivity.
Qed.

Lemma unschedule_spec tm k :
  JsMap.has (scheduled (unschedule tm k)) k = false /\
  (forall j, JsMap.get (scheduled tm) k = Some j -> In j (stoppedJobs (unschedule tm k))) /\
  incl (stoppedJobs tm) (stoppedJobs (unschedule tm k)) /\
  tasks (unschedule tm k) = tasks tm /\ tasksFileWrites (unschedule tm k) = tasksFileWrites tm /\
  listenedMessageIds (unschedule tm k) = listenedMessageIds tm.
Proof.
  unfold unschedule. destruct (JsMap.get (scheduled tm) k) as [j|] eqn:E; cbn.
  - split; [apply has_delete|split; [intros j' [= <-]; left; reflexivity|]].
    split; [intros x Hx; right; exact Hx|auto].
  - split; [apply has_get_none, E|split; [discriminate|]]. split; [intros x Hx; exact Hx|auto].
Qed.

Section WithCron2.
Variable cron_loaded : bool.
Variable validate : string -> bool.

End WithCron2.

Lemma replace_at_nth l idx x t :
  nth_error l idx = Some t -> map tid (replace_at l idx x) = map tid (firstn idx l) ++ tid x :: map tid (skipn (S idx) l).
Proof.
  revert idx. induction l as [|y l IH]; intros [|idx]; cbn; try discriminate; [intros _; reflexivity|].
  intros H. rewrite (IH idx H). reflexivity.
Qed.

Lemma filter_all {A} (f : A -> bool) l : (forall x, In x l -> f x = true) -> filter f l = l.
Proof.
  induction l as [|a l IH]; cbn; [reflexivity|]. intros H. rewrite (H a (or_introl eq_refl)).
  f_equal. apply IH. intros x Hx. apply H. right. exact Hx.
Qed.

Lemma delete_at_filter l id idx :
  NoDup (map tid l) -> findIndex l id = Some idx ->
  firstn idx l ++ skipn (S idx) l = filter (fun t => negb (String.eqb (tid t) id)) l.
Proof.
  revert idx. induction l as [|t l IH]; intros idx HN; cbn; [discriminate|].
  inversion HN as [|? ? Hnin HN']; subst.
  destruct (String.eqb_spec (tid t) id) as [<-|Hne].
  - intros [= <-]. cbn [firstn skipn app filter negb]. symmetry. apply filter_all.
    intros x Hx. destruct (String.eqb_spec (tid x) (tid t)); [|reflexivity].
    exfalso. apply Hnin. rewrite <- e. apply in_map, Hx.
  - destruct (findIndex l id) as [i|] eqn:Hi; cbn; [|discriminate].
    intros [= <-]. cbn. f_equal. apply IH; auto.
Qed.

Lemma processedIds_marks tk ms : forall tm,
  NoDup (ListenCallback.processedIds tm tk) ->
  NoDup (ListenCallback.processedIds
           (fold_left (fun tm m => snd (markMessageAsProcessed tm tk m)) ms tm) tk) /\
  forall x, In x (ListenCallback.processedIds
                   (fold_left (fun tm m => snd (markMessageAsProcessed tm tk m)) ms tm) tk)
            <-> In x (ListenCallback.processedIds tm tk ++ ms).
Proof.
  induction ms as [|m ms IH]; intros tm HN; cbn [fold_left].
  - rewrite app_nil_r. split; [exact HN|tauto].
  - assert (HN1 : NoDup (ListenCallback.processedIds (snd (markMessageAsProcessed tm tk m)) tk) /\
                  forall x, In x (ListenCallback.processedIds (snd (markMessageAsProcessed tm tk m)) tk)
                            <-> In x (ListenCallback.processedIds tm tk) \/ x = m).
    { rewrite ListenClaims.processed_mark.
      destruct (existsb (Nat.eqb m) (ListenCallback.processedIds tm tk)) eqn:E.
      - apply ListenClaims.existsb_eqb_In in E. split; [exact HN|].
        intros x. split; [tauto|intros [H| ->]; auto].
      - split.
        + apply NoDup_app; [exact HN|constructor; [intros []|constructor]|].
          intros x Hx [-> | []]. assert (existsb (Nat.eqb x) (ListenCallback.processedIds tm tk) = true)
            by (apply ListenClaims.existsb_eqb_In, Hx). congruence.
        + intros x. rewrite in_app_iff. cbn. split; intros [H|H]; auto; destruct H as [H|[]]; auto. }
    destruct HN1 as [HN1 Hin1]. destruct (IH _ HN1) as [HN2 Hin2].
    split; [exact HN2|]. intros x. rewrite Hin2, !in_app_iff, Hin1. cbn.
    pose proof (@eq_sym _ m x). pose proof (@eq_sym _ x m). tauto.
Qed.


Lemma findIndex_find l id idx t :
  findIndex l id = Some idx -> nth_error l idx = Some t -> find (fun t => String.eqb (tid t) id) l = Some t.
Proof.
  revert idx. induction l as [|y l IH]; intros idx; cbn; [discriminate|].
  destruct (String.eqb (tid y) id).
  - intros [= <-]. cbn. intros [= ->]. reflexivity.
  - destruct (findIndex l id) as [i|]; cbn; [|discriminate]. intros [= <-]. apply IH. reflexivity.
Qed.

Lemma count_processedIds tm tk :
  getProcessedMessageCount tm tk = List.length (ListenCallback.processedIds tm tk).
Proof. unfold getProcessedMessageCount, ListenCallback.processedIds. destruct (JsMap.get _ _); reflexivity. Qed.

End TasksMoreFacts.

(** ** Properties of the task manager beyond the specification's claims *)
Module TasksExtras.
Import Tasks TasksMore JsMapFacts TaskClaims TasksMoreFacts.

(** [rescheduleAll] stops every cron job it had, and afterwards (task ids
    being distinct) exactly the enabled send tasks whose normalised cron
    expression [node-cron] accepts have a job, one each, in task order;
    disabled tasks and listen tasks get none, and no task is changed. *)
Theorem rescheduleAll_reschedules cron_loaded validate tm :
  NoDup (map tid (tasks tm)) ->
  JsMap.keys (scheduled (rescheduleAll cron_loaded validate tm))
    = map tid (filter (schedulable cron_loaded validate) (tasks tm)) /\
  (forall j, In j (JsMap.values (scheduled tm)) ->
             In j (stoppedJobs (rescheduleAll cron_loaded validate tm))) /\
  tasks (rescheduleAll cron_loaded validate tm) = tasks tm.
Proof.
  intros HN. unfold rescheduleAll. cbv zeta.
  destruct (fold_scheduleTask_fresh cron_loaded validate (tasks tm)
              (set_scheduled tm [] (rev (JsMap.values (scheduled tm)) ++ stoppedJobs tm)) HN)
    as [Hk [Hs Ht]]; [intros x _ []|].
  cbn [tasks set_scheduled] in *. rewrite Hk, Hs, Ht. cbn [scheduled stoppedJobs tasks].
  split; [reflexivity|split; [|reflexivity]].
  intros j Hj. apply in_or_app. left. apply in_rev. rewrite rev_involutive. exact Hj.
Qed.

Lemma rescheduleAll_reschedules_witness :
  JsMap.keys (scheduled (rescheduleAll true (fun _ => true)
    (mkManager [mkTask "a" TSend "0 9 * * *" "@x" "hi" "" None true false;
                mkTask "b" TSend "0 9 * * *" "@x" "hi" "" None false false;
                mkTask "c" TListen "" "" "" "@ch" None true false]
               [("a", 0%nat); ("b", 1%nat)] [] [] 2 [] [] [])))
  = ["a"] /\
  In 1%nat (stoppedJobs (rescheduleAll true (fun _ => true)
    (mkManager [mkTask "a" TSend "0 9 * * *" "@x" "hi" "" None true false;
                mkTask "b" TSend "0 9 * * *" "@x" "hi" "" None false false;
                mkTask "c" TListen "" "" "" "@ch" None true false]
               [("a", 0%nat); ("b", 1%nat)] [] [] 2 [] [] []))).
Proof.
  destruct (rescheduleAll_reschedules true (fun _ => true)
    (mkManager [mkTask "a" TSend "0 9 * * *" "@x" "hi" "" None true false;
                mkTask "b" TSend "0 9 * * *" "@x" "hi" "" None false false;
                mkTask "c" TListen "" "" "" "@ch" None true false]
               [("a", 0%nat); ("b", 1%nat)] [] [] 2 [] [] [])
    ltac:(vm_compute; repeat constructor; vm_compute; intuition discriminate)) as [H1 [H2 _]].
  split; [rewrite H1; vm_compute; reflexivity|apply H2; vm_compute; auto].
Defined.





(** Turning a send task into a listen task with [updateTask] does not stop
    its cron job: the job stays registered under the task's id and is not
    stopped, although the task is now a listen task. *)
Theorem updateTask_to_listen_keeps_cron_job cron_loaded validate tm taskId u j r tm' :
  In taskId (map tid (tasks tm)) -> u_type u = Some TListen ->
  JsMap.get (scheduled tm) taskId = Some j ->
  updateTask cron_loaded validate tm taskId u = (r, tm') ->
  (exists t, r = Some t /\ ttype t = TListen) /\
  JsMap.get (scheduled tm') taskId = Some j /\ stoppedJobs tm' = stoppedJobs tm.
Proof.
  intros Hin Hty Hj. unfold updateTask.
  destruct (findIndex_In _ _ Hin) as [idx Hidx]. rewrite Hidx.
  destruct (findIndex_nth _ _ _ Hidx) as [original [Hn _]]. rewrite Hn.
  assert (Ety : ttype (merge original u) = TListen) by (unfold merge; rewrite Hty; reflexivity).
  rewrite Ety. intros [= <- <-]. cbn. split; [eexists; split; [reflexivity|exact Ety]|auto].
Qed.

Lemma updateTask_to_listen_keeps_cron_job_witness :
  JsMap.get (scheduled (snd (updateTask true (fun _ => true)
    (mkManager [mkTask "a" TSend "0 9 * * *" "@x" "hi" "" None true false] [("a", 0%nat)] [] [] 1 [] [] [])
    "a" (mkUpdate None (Some TListen) None None None (Some "@ch") None None None)))) "a" = Some 0%nat.
Proof.
  apply (proj1 (proj2 (updateTask_to_listen_keeps_cron_job true (fun _ => true)
    (mkManager [mkTask "a" TSend "0 9 * * *" "@x" "hi" "" None true false] [("a", 0%nat)] [] [] 1 [] [] [])
    "a" (mkUpdate None (Some TListen) None None None (Some "@ch") None None None) 0%nat
    (fst (updateTask true (fun _ => true)
      (mkManager [mkTask "a" TSend "0 9 * * *" "@x" "hi" "" None true false] [("a", 0%nat)] [] [] 1 [] [] [])
      "a" (mkUpdate None (Some TListen) None None None (Some "@ch") None None None)))
    (snd (updateTask true (fun _ => true)
      (mkManager [mkTask "a" TSend "0 9 * * *" "@x" "hi" "" None true false] [("a", 0%nat)] [] [] 1 [] [] [])
      "a" (mkUpdate None (Some TListen) None None None (Some "@ch") None None None)))
    ltac:(vm_compute; left; reflexivity) eq_refl ltac:(vm_compute; reflexivity)
    ltac:(vm_compute; reflexivity)))).
Defined.

(** [deleteTask] on an id no task has returns false and changes nothing.
    Otherwise (task ids being distinct) it returns true, removes that task
    and only it, keeping the order of the others, saves the list, stops
    and forgets its cron job, and for a listen task drops its set of
    processed messages. *)
Theorem deleteTask_removes_task tm taskId b tm' :
  NoDup (map tid (tasks tm)) -> deleteTask tm taskId = (b, tm') ->
  (~ In taskId (map tid (tasks tm)) -> b = false /\ tm' = tm) /\
  (In taskId (map tid (tasks tm)) ->
   b = true /\ tasks tm' = filter (fun t => negb (String.eqb (tid t) taskId)) (tasks tm) /\
   tasksFileWrites tm' = tasks tm' :: tasksFileWrites tm /\
   JsMap.has (scheduled tm') taskId = false /\
   (forall j, JsMap.get (scheduled tm) taskId = Some j -> In j (stoppedJobs tm')) /\
   (forall t, getTask tm taskId = Some t -> ttype t = TListen ->
              JsMap.get (listenedMessageIds tm') taskId = None)).
Proof.
  intros HN Heq. unfold deleteTask in Heq. split.
  - intros Hnin. rewrite (findIndex_None _ _ Hnin) in Heq. injection Heq as <- <-. auto.
  - intros Hin. destruct (findIndex_In _ _ Hin) as [idx Hidx]. rewrite Hidx in Heq.
    destruct (findIndex_nth _ _ _ Hidx) as [original [Hn _]]. rewrite Hn in Heq. cbv zeta in Heq.
    set (tm1 := saveTasks (set_tasks tm (firstn idx (tasks tm) ++ skipn (S idx) (tasks tm)))) in Heq.
    destruct (unschedule_spec tm1 taskId) as [U1 [U2 [U3 [U4 [U5 U6]]]]].
    assert (Hg : forall t, getTask tm taskId = Some t -> t = original).
    { intros t Ht. unfold getTask in Ht. rewrite (findIndex_find _ _ _ _ Hidx Hn) in Ht. congruence. }
    assert (Ht1 : tasks tm1 = filter (fun t => negb (String.eqb (tid t) taskId)) (tasks tm))
      by (apply (delete_at_filter _ _ _ HN Hidx)).
    assert (Hw1 : tasksFileWrites tm1 = tasks tm1 :: tasksFileWrites tm) by reflexivity.
    destruct (ttype original) eqn:Ety; injection Heq as <- <-; cbn [tasks tasksFileWrites scheduled stoppedJobs listenedMessageIds].
    + split; [reflexivity|]. rewrite U4, U5, Hw1, Ht1. split; [reflexivity|split; [reflexivity|]].
      split; [exact U1|split; [exact U2|]]. intros t Ht Hl. rewrite (Hg t Ht), Ety in Hl. discriminate.
    + split; [reflexivity|]. rewrite U4, U5, Hw1, Ht1. split; [reflexivity|split; [reflexivity|]].
      split; [exact U1|split; [exact U2|]]. intros t _ _. apply get_none, has_delete.
Qed.

Lemma deleteTask_removes_task_witness :
  deleteTask (mkManager [mkTask "a" TSend "0 9 * * *" "@x" "hi" "" None true false;
                         mkTask "b" TListen "" "" "" "@ch" None true false]
                        [("a", 0%nat)] [] [] 1 [("b", [7%nat])] [] []) "b"
  = (true, snd (deleteTask (mkManager [mkTask "a" TSend "0 9 * * *" "@x" "hi" "" None true false;
                         mkTask "b" TListen "" "" "" "@ch" None true false]
                        [("a", 0%nat)] [] [] 1 [("b", [7%nat])] [] []) "b")) /\
  JsMap.get (listenedMessageIds (snd (deleteTask (mkManager [mkTask "a" TSend "0 9 * * *" "@x" "hi" "" None true false;
                         mkTask "b" TListen "" "" "" "@ch" None true false]
                        [("a", 0%nat)] [] [] 1 [("b", [7%nat])] [] []) "b"))) "b" = None.
Proof.
  split; [vm_compute; reflexivity|].
  destruct (proj2 (deleteTask_removes_task
    (mkManager [mkTask "a" TSend "0 9 * * *" "@x" "hi" "" None true false;
                mkTask "b" TListen "" "" "" "@ch" None true false]
               [("a", 0%nat)] [] [] 1 [("b", [7%nat])] [] []) "b" true
    (snd (deleteTask (mkManager [mkTask "a" TSend "0 9 * * *" "@x" "hi" "" None true false;
                         mkTask "b" TListen "" "" "" "@ch" None true false]
                        [("a", 0%nat)] [] [] 1 [("b", [7%nat])] [] []) "b"))
    ltac:(vm_compute; repeat constructor; vm_compute; intuition discriminate)
    ltac:(vm_compute; reflexivity))
    ltac:(vm_compute; right; left; reflexivity)) as [_ [_ [_ [_ [_ Hl]]]]].
  apply (Hl (mkTask "b" TListen "" "" "" "@ch" None true false)); vm_compute; reflexivity.
Defined.

(** [getProcessedMessageCount] after a run of [markMessageAsProcessed] on a
    listen task counts each distinct message id once, those recorded before
    included; after [clearProcessedMessages] the count is 0 and every
    message id is new again. *)
Theorem processed_count_and_clear tm tk ms :
  NoDup (ListenCallback.processedIds tm tk) ->
  getProcessedMessageCount (fold_left (fun tm m => snd (markMessageAsProcessed tm tk m)) ms tm) tk
    = List.length (nodup Nat.eq_dec (ListenCallback.processedIds tm tk ++ ms)) /\
  getProcessedMessageCount
    (clearProcessedMessages (fold_left (fun tm m => snd (markMessageAsProcessed tm tk m)) ms tm) tk) tk
    = 0%nat /\
  forall m, fst (markMessageAsProcessed
    (clearProcessedMessages (fold_left (fun tm m => snd (markMessageAsProcessed tm tk m)) ms tm) tk) tk m)
    = true.
Proof.
  intros HN. destruct (processedIds_marks tk ms tm HN) as [HN' Hin].
  set (tm' := fold_left (fun tm m => snd (markMessageAsProcessed tm tk m)) ms tm) in *.
  assert (Hc : ListenCallback.processedIds (clearProcessedMessages tm' tk) tk = []).
  { unfold clearProcessedMessages, ListenCallback.processedIds.
    destruct (JsMap.get (listenedMessageIds tm') tk) eqn:E; [cbn; rewrite get_set_same|rewrite E]; reflexivity. }
  split; [|split].
  - rewrite count_processedIds. apply Nat.le_antisymm; apply NoDup_incl_length.
    + exact HN'.
    + intros x Hx. apply nodup_In, Hin, Hx.
    + apply NoDup_nodup.
    + intros x Hx. apply Hin, (nodup_In Nat.eq_dec), Hx.
  - rewrite count_processedIds, Hc. reflexivity.
  - intros m. unfold markMessageAsProcessed. fold (ListenCallback.processedIds (clearProcessedMessages tm' tk) tk).
    rewrite Hc. reflexivity.
Qed.

Lemma processed_count_and_clear_witness :
  getProcessedMessageCount (fold_left (fun tm m => snd (markMessageAsProcessed tm "t" m)) [5; 6; 5; 7]%nat
    (mkManager [] [] [] [] 0 [("t", [6%nat])] [] [])) "t" = 3%nat.
Proof.
  rewrite (proj1 (processed_count_and_clear (mkManager [] [] [] [] 0 [("t", [6%nat])] [] []) "t" [5; 6; 5; 7]%nat
    ltac:(vm_compute; repeat constructor; intros []))).
  vm_compute. reflexivity.
Defined.
End TasksExtras.

(** ** Mock login and reply polling of the file service *)
Module SessionMockFacts.
Import SessionMock JsMapFacts.


(** A message [pickReply] may return: incoming, not from the user itself,
    and newer than [sinceId] when both ids are set. *)
Definition reply_ok (sinceId selfId : nat) (m : msg) : Prop :=
  out m = false /\
  ~ (selfId <> 0 /\ senderId m <> 0 /\ senderId m = selfId)%nat /\
  ((sinceId <> 0)%nat -> (mid m <> 0)%nat -> (sinceId < mid m)%nat).

(** A message [pickReply] skips: outgoing or from the user itself. *)
Definition skipped (selfId : nat) (m : msg) : Prop :=
  out m = true \/ (selfId <> 0 /\ senderId m <> 0 /\ senderId m = selfId)%nat.
Lemma pickReply_spec sinceId selfId msgs r :
  pickReply sinceId selfId msgs = Some r ->
  exists pre post, msgs = pre ++ r :: post /\ reply_ok sinceId selfId r /\
    forall m, In m pre -> skipped selfId m /\
      ((sinceId <> 0)%nat -> (mid m <> 0)%nat -> (sinceId < mid m)%nat).
Proof.
  induction msgs as [|m rest IH]; cbn [pickReply]; [discriminate|].
  assert (Hnew : negb (sinceId =? 0)%nat && negb (mid m =? 0)%nat && (mid m <=? sinceId)%nat = false ->
                 (sinceId <> 0)%nat -> (mid m <> 0)%nat -> (sinceId < mid m)%nat).
  { intros H H1 H2. apply Nat.eqb_neq in H1, H2. rewrite H1, H2 in H. cbn in H.
    apply Nat.leb_gt in H. exact H. }
  destruct (negb (sinceId =? 0)%nat && negb (mid m =? 0)%nat && (mid m <=? sinceId)%nat) eqn:Eold;
    [discriminate|].
  assert (Hskip : pickReply sinceId selfId rest = Some r -> skipped selfId m ->
            exists pre post, m :: rest = pre ++ r :: post /\ reply_ok sinceId selfId r /\
              forall m', In m' pre -> skipped selfId m' /\
                ((sinceId <> 0)%nat -> (mid m' <> 0)%nat -> (sinceId < mid m')%nat)).
  { intros Hr Hs. destruct (IH Hr) as [pre [post [He [Hok Hpre]]]].
    exists (m :: pre), post. split; [rewrite He; reflexivity|split; [exact Hok|]].
    intros m' [<-|Hm']; [split; [exact Hs|exact (Hnew eq_refl)]|apply Hpre, Hm']. }
  destruct (out m) eqn:Eout.
  - intros Hr. apply (Hskip Hr). left. exact Eout.
  - destruct (negb (selfId =? 0)%nat && negb (senderId m =? 0)%nat && (senderId m =? selfId)%nat) eqn:Eself.
    + intros Hr. apply (Hskip Hr). right.
      apply andb_prop in Eself as [E12 E3]. apply andb_prop in E12 as [E1 E2].
      apply negb_true_iff, Nat.eqb_neq in E1, E2. apply Nat.eqb_eq in E3. auto.
    + intros [= <-]. exists [], rest. split; [reflexivity|split; [|intros m' []]].
      split; [exact Eout|split; [|exact (Hnew eq_refl)]].
      intros [H1 [H2 H3]]. apply Nat.eqb_neq in H1, H2. apply Nat.eqb_eq in H3.
      rewrite H1, H2, H3 in Eself. discriminate.
Qed.
End SessionMockFacts.

Module SessionMockExtras.
Import SessionMock JsMapFacts SessionMockFacts.



(** In mock mode [logout(stateId)] forgets that login state, so [verify]
    of it then fails with '无效的 stateId'; a missing or empty [stateId]
    changes nothing, and other login states are never touched. *)
Theorem logout_forgets_state st stateId :
  stateId <> "" ->
  (forall w pw, verify (logout st (Some stateId)) stateId w pw
                = (VErr "无效的 stateId", logout st (Some stateId))) /\
  logout st None = st /\ logout st (Some "") = st /\
  (forall k, k <> stateId -> JsMap.get (logout st (Some stateId)) k = JsMap.get st k).
Proof.
  intros Hne. apply String.eqb_neq in Hne.
  split; [|split; [reflexivity|split; [reflexivity|]]].
  - intros w pw. unfold verify.
    assert (H : JsMap.get (logout st (Some stateId)) stateId = None).
    { unfold logout, Service.truthy. rewrite Hne.
      destruct (JsMap.has st stateId) eqn:E; [apply get_none, TaskClaims.has_delete|apply get_none, E]. }
    rewrite H. reflexivity.
  - intros k Hk. unfold logout, Service.truthy. rewrite Hne.
    destruct (JsMap.has st stateId); [|reflexivity].
    apply TasksMoreFacts.get_delete_other. exact Hk.
Qed.

Lemma logout_forgets_state_witness :
  verify (logout (snd (sendCode [] "+1555" "s1" "12345" 0)) (Some "s1")) "s1" (Some "12345") None
  = (VErr "无效的 stateId", logout (snd (sendCode [] "+1555" "s1" "12345" 0)) (Some "s1")).
Proof.
  apply (proj1 (logout_forgets_state (snd (sendCode [] "+1555" "s1" "12345" 0)) "s1" ltac:(discriminate))).
Defined.

(** [waitForFirstReply] returns nothing unless the real client is on; the
    message it returns is among the 20 latest of a page it fetched, is
    incoming, is not sent by the user itself, and is newer than [sinceId]
    when both ids are set; the messages before it on that page are all
    outgoing or the user's own, and all newer than [sinceId]. *)
Theorem waitForFirstReply_returns_reply enabledReal sinceId selfId polls r :
  waitForFirstReply enabledReal sinceId selfId polls = Some r ->
  enabledReal = true /\
  exists p pre post, In p polls /\ firstn 20 p = pre ++ r :: post /\ reply_ok sinceId selfId r /\
    forall m, In m pre -> skipped selfId m /\
      ((sinceId <> 0)%nat -> (mid m <> 0)%nat -> (sinceId < mid m)%nat).
Proof.
  destruct enabledReal; [|destruct polls; cbn; intros H; discriminate]. intros Hw. split; [reflexivity|]. revert Hw.
  induction polls as [|p ps IH]; cbn [waitForFirstReply negb]; [discriminate|].
  destruct (pickReply sinceId selfId (firstn 20 p)) as [r'|] eqn:Ep.
  - intros [= <-]. destruct (pickReply_spec _ _ _ _ Ep) as [pre [post [He [Hok Hpre]]]].
    exists p, pre, post. split; [left; reflexivity|auto].
  - intros Hr. destruct (IH Hr) as [p' [pre [post [Hin H]]]].
    exists p', pre, post. split; [right; exact Hin|exact H].
Qed.

Lemma waitForFirstReply_returns_reply_witness :
  waitForFirstReply true 10 7 [[mkMsg 13 true 7; mkMsg 12 false 7; mkMsg 11 false 8]]
  = Some (mkMsg 11 false 8) /\
  (10 < mid (mkMsg 11 false 8))%nat.
Proof.
  split; [vm_compute; reflexivity|].
  destruct (waitForFirstReply_returns_reply true 10 7 [[mkMsg 13 true 7; mkMsg 12 false 7; mkMsg 11 false 8]]
    (mkMsg 11 false 8) ltac:(vm_compute; reflexivity)) as [_ [p [pre [post [_ [_ [[_ [_ Hn]] _]]]]]]].
  apply Hn; discriminate.
Defined.
End SessionMockExtras.

(** ** Starting and updating listen tasks in the service *)
Module ServiceMoreFacts.
Import Service ServiceMore JsMapFacts ServiceClaims.

Lemma filter_filter_and {A} (f g : A -> bool) l : filter f (filter g l) = filter (fun x => g x && f x) l.
Proof.
  induction l as [|a l IH]; cbn; [reflexivity|].
  destruct (g a); cbn; [destruct (f a)|]; rewrite IH; reflexivity.
Qed.

Lemma NoDup_map_filter {A B} (f : A -> B) (g : A -> bool) l :
  NoDup (map f l) -> NoDup (map f (filter g l)).
Proof.
  induction l as [|a l IH]; cbn; [auto|]. intros HN. inversion HN as [|? ? Hn HN']; subst.
  destruct (g a); cbn; [constructor; [|auto]|auto].
  intros Hin. apply Hn. apply in_map_iff in Hin as [x [Hx Hin]]. apply filter_In in Hin as [Hin _].
  rewrite <- Hx. apply in_map, Hin.
Qed.

(** The session [startListenTask] would give task [t] in [s]. *)
Definition listen_session (s : service) (t : Tasks.task) : option string :=
  getSession (accountManager s) (js_or (Tasks.accountId t) (Accounts.activeAccountId (accountManager s))).

Lemma listen_session_am s s' : accountManager s' = accountManager s -> listen_session s' = listen_session s.
Proof. intros H. unfold listen_session. rewrite H. reflexivity. Qed.

Lemma stopListenTask_absent s k :
  JsMap.get (activeListeners s) k = None -> stopListenTask s k = s.
Proof. unfold stopListenTask. intros ->. reflexivity. Qed.

Lemma startListenTask_fresh s t latest :
  JsMap.has (activeListeners s) (Tasks.tid t) = false ->
  JsMap.keys (activeListeners (startListenTask s t latest))
    = JsMap.keys (activeListeners s) ++
      (match Tasks.ttype t, listen_session s t with Tasks.TListen, Some _ => [Tasks.tid t] | _, _ => [] end) /\
  accountManager (startListenTask s t latest) = accountManager s /\
  taskManager (startListenTask s t latest) = taskManager s.
Proof.
  intros Hf. unfold startListenTask, listen_session.
  destruct (Tasks.ttype t); [rewrite app_nil_r; auto|].
  rewrite (stopListenTask_absent s _ (get_none _ _ Hf)).
  destruct (getSession _ _); cbn [activeListeners accountManager taskManager];
    [rewrite set_new by exact Hf; rewrite keys_app; auto|rewrite app_nil_r; auto].
Qed.

Lemma fold_startListenTask (latest : string -> Monitor.page) l : forall s,
  NoDup (map Tasks.tid l) ->
  (forall x, In x (map Tasks.tid l) -> ~ In x (JsMap.keys (activeListeners s))) ->
  JsMap.keys (activeListeners (fold_left (fun s t => startListenTask s t (latest (Tasks.tid t))) l s))
    = JsMap.keys (activeListeners s) ++
      map Tasks.tid (filter (fun t => match Tasks.ttype t, listen_session s t with
                                      | Tasks.TListen, Some _ => true | _, _ => false end) l).
Proof.
  induction l as [|t l IH]; intros s HN Hd; cbn [fold_left map filter]; [rewrite app_nil_r; reflexivity|].
  inversion HN as [|? ? Hnin HN']; subst.
  assert (Hf : JsMap.has (activeListeners s) (Tasks.tid t) = false).
  { destruct (JsMap.has (activeListeners s) (Tasks.tid t)) eqn:E; [|reflexivity].
    exfalso. apply (Hd (Tasks.tid t)); [left; reflexivity|apply has_In, E]. }
  destruct (startListenTask_fresh s t (latest (Tasks.tid t)) Hf) as [Hk [Ha _]].
  rewrite IH; [|exact HN'|].
  - rewrite Hk. rewrite (listen_session_am _ _ Ha). rewrite <- app_assoc.
    destruct (Tasks.ttype t), (listen_session s t); reflexivity.
  - intros x Hx. rewrite Hk. intros Hin. apply in_app_or in Hin as [Hin|Hin].
    + apply (Hd x); [right; exact Hx|exact Hin].
    + destruct (Tasks.ttype t), (listen_session s t); try destruct Hin as [<-|[]]; try contradiction; destruct Hin.
Qed.

End ServiceMoreFacts.

Module ServiceMoreExtras.
Import Service ServiceMore JsMapFacts ServiceClaims ServiceMoreFacts.

(** [startAllListenTasks] with no listener running (task ids being
    distinct) starts a listener for exactly the enabled listen tasks whose
    account, or else the active account, has a session, one each, in task
    order; send tasks and disabled listen tasks get none. *)
Theorem startAllListenTasks_starts_enabled s latest :
  activeListeners s = [] -> NoDup (map Tasks.tid (Tasks.tasks (taskManager s))) ->
  JsMap.keys (activeListeners (startAllListenTasks s latest))
  = map Tasks.tid (filter (fun t =>
      match Tasks.ttype t with Tasks.TListen => Tasks.enabled t | Tasks.TSend => false end &&
      match getSession (accountManager s)
              (js_or (Tasks.accountId t) (Accounts.activeAccountId (accountManager s))) with
      | Some _ => true | None => false end) (Tasks.tasks (taskManager s))).
Proof.
  intros He HN. unfold startAllListenTasks.
  rewrite fold_startListenTask; [|apply NoDup_map_filter, HN|rewrite He; intros x _ []].
  rewrite He. cbn [JsMap.keys map app]. rewrite filter_filter_and. f_equal. apply filter_ext.
  intros t. unfold listen_session. destruct (Tasks.ttype t), (Tasks.enabled t); reflexivity.
Qed.

Lemma startAllListenTasks_starts_enabled_witness :
  JsMap.keys (activeListeners (startAllListenTasks
    (mkService (snd (Accounts.addAccount Accounts.empty_manager "+1555" None "t0"))
       (Tasks.mkManager [Tasks.mkTask "L1" Tasks.TListen "" "" "" "@a" None true false;
                         Tasks.mkTask "L2" Tasks.TListen "" "" "" "@b" None false false;
                         Tasks.mkTask "L3" Tasks.TListen "" "" "" "@c" (Some "1666") true false;
                         Tasks.mkTask "S1" Tasks.TSend "0 9 * * *" "@x" "hi" "" None true false]
                        [] [] [] 0 [] [] [])
       [] [] [] [] [])
    (fun _ => Some []))) = ["L1"].
Proof.
  rewrite (startAllListenTasks_starts_enabled
    (mkService (snd (Accounts.addAccount Accounts.empty_manager "+1555" None "t0"))
       (Tasks.mkManager [Tasks.mkTask "L1" Tasks.TListen "" "" "" "@a" None true false;
                         Tasks.mkTask "L2" Tasks.TListen "" "" "" "@b" None false false;
                         Tasks.mkTask "L3" Tasks.TListen "" "" "" "@c" (Some "1666") true false;
                         Tasks.mkTask "S1" Tasks.TSend "0 9 * * *" "@x" "hi" "" None true false]
                        [] [] [] 0 [] [] [])
       [] [] [] [] [])
    (fun _ => Some []) eq_refl
    ltac:(vm_compute; repeat constructor; vm_compute; intuition discriminate)).
  vm_compute. reflexivity.
Defined.


End ServiceMoreExtras.

(** ** Webhook notifications *)
Module NotifyFacts.
Import Notify.

Lemma post_go_spec maxRetries outcome : forall fuel attempt,
  (1 <= fuel)%nat -> (attempt + fuel = maxRetries + 2)%nat ->
  (1 <= fst (post_go fuel attempt maxRetries outcome) <= fuel)%nat /\
  (forall k, (attempt <= k < attempt + fst (post_go fuel attempt maxRetries outcome) - 1)%nat ->
     exists e, outcome k = Some e /\ isNetworkError e = true) /\
  (snd (post_go fuel attempt maxRetries outcome) = true <->
     outcome (attempt + fst (post_go fuel attempt maxRetries outcome) - 1)%nat = None) /\
  (forall e, outcome (attempt + fst (post_go fuel attempt maxRetries outcome) - 1)%nat = Some e ->
     (attempt + fst (post_go fuel attempt maxRetries outcome) - 1 = maxRetries + 1)%nat \/
     isNetworkError e = false).
Proof.
  induction fuel as [|fuel IH]; intros attempt H1 Hs; [lia|]. cbn [post_go].
  destruct (outcome attempt) as [e|] eqn:Eo.
  - destruct ((attempt <=? maxRetries)%nat && isNetworkError e) eqn:Ec.
    + apply andb_prop in Ec as [Ea En]. apply Nat.leb_le in Ea.
      destruct (IH (S attempt) ltac:(lia) ltac:(lia)) as [B1 [B2 [B3 B4]]].
      destruct (post_go fuel (S attempt) maxRetries outcome) as [n ok]. cbn [fst snd] in *.
      replace (attempt + S n - 1)%nat with (S attempt + n - 1)%nat by lia.
      split; [lia|split; [|split; [exact B3|exact B4]]].
      intros k Hk. destruct (Nat.eq_dec k attempt) as [->|Hne]; [exists e; auto|apply B2; lia].
    + cbn [fst snd]. replace (attempt + 1 - 1)%nat with attempt by lia. rewrite Eo.
      split; [lia|split; [intros k Hk; lia|split; [split; discriminate|]]].
      intros e' [= <-]. destruct (Nat.leb_spec attempt maxRetries); cbn in Ec; [right; exact Ec|left; lia].
  - cbn [fst snd]. replace (attempt + 1 - 1)%nat with attempt by lia. rewrite Eo.
    split; [lia|split; [intros k Hk; lia|split; [tauto|discriminate]]].
Qed.
End NotifyFacts.

Module NotifyExtras.
Import Notify NotifyFacts.

(** [notifyAll] posts to one webhook target at least once and at most
    [maxRetries + 1] times: it retries only after a failure whose message
    names a network error (ENOTFOUND, ETIMEDOUT, ECONNREFUSED, EAI_AGAIN),
    stops at the first success, and succeeds exactly when its last post
    did; a last failure is not a network error or used the last attempt. *)
Theorem postWithRetry_attempts maxRetries outcome :
  (1 <= fst (postWithRetry maxRetries outcome) <= maxRetries + 1)%nat /\
  (forall k, (1 <= k < fst (postWithRetry maxRetries outcome))%nat ->
     exists e, outcome k = Some e /\ isNetworkError e = true) /\
  (snd (postWithRetry maxRetries outcome) = true <-> outcome (fst (postWithRetry maxRetries outcome)) = None) /\
  (forall e, outcome (fst (postWithRetry maxRetries outcome)) = Some e ->
     fst (postWithRetry maxRetries outcome) = (maxRetries + 1)%nat \/ isNetworkError e = false).
Proof.
  unfold postWithRetry.
  destruct (post_go_spec maxRetries outcome (maxRetries + 1) 1 ltac:(lia) ltac:(lia)) as [B1 [B2 [B3 B4]]].
  replace (1 + fst (post_go (maxRetries + 1) 1 maxRetries outcome) - 1)%nat
    with (fst (post_go (maxRetries + 1) 1 maxRetries outcome)) in * by lia.
  split; [exact B1|split; [intros k Hk; apply B2; lia|split; [exact B3|exact B4]]].
Qed.

(** [notifyAll] posts to the targets that have a [url] (or else an
    [endpoint]), in order, skipping the others, and each of them whatever
    happened to the ones before: every one is posted between 1 and
    [maxRetries + 1] times. *)
Theorem notifyAll_posts_each targets maxRetries outcome :
  map (fun x => fst (fst x)) (notifyAll targets maxRetries outcome)
  = flat_map (fun t => match Service.truthy (Service.js_or (url t) (endpoint t)) with
                       | Some u => [u] | None => [] end) targets /\
  Forall (fun x => (1 <= snd (fst x) <= maxRetries + 1)%nat) (notifyAll targets maxRetries outcome).
Proof.
  unfold notifyAll. cut (forall i,
    map (fun x => fst (fst x)) (notify_go i targets maxRetries outcome)
    = flat_map (fun t => match Service.truthy (Service.js_or (url t) (endpoint t)) with
                         | Some u => [u] | None => [] end) targets /\
    Forall (fun x => (1 <= snd (fst x) <= maxRetries + 1)%nat) (notify_go i targets maxRetries outcome));
    [intros G; apply G|].
  induction targets as [|t ts IH]; intros i; cbn [notify_go map flat_map]; [split; [reflexivity|constructor]|].
  destruct (Service.js_or (url t) (endpoint t)) as [u|]; [|apply IH].
  cbn [Service.truthy]. destruct (String.eqb u ""); [apply IH|].
  destruct (postWithRetry_attempts maxRetries (outcome i)) as [B1 _].
  destruct (postWithRetry maxRetries (outcome i)) as [n ok]. cbn [fst snd app map] in *.
  destruct (IH (S i)) as [H1 H2]. split; [rewrite H1; reflexivity|constructor; [exact B1|exact H2]].
Qed.
End NotifyExtras.
